(** * Smart-energy prediction service: api/predict.py

    A shallow embedding of [api/predict.py] (the model loader, the feature
    transformer, the two Flask views and the serverless [handler]) and the
    properties of it that the service's specification states.

    Python values are an inductive type, Python floats are IEEE binary64
    (Rocq's primitive floats), Python ints are [Z], raised exceptions are the
    [Raise] branch of an error monad.  What the file imports and this
    repository does not define ([math.sin], [math.cos], [numpy.array],
    [json.loads], the unpickled estimator) is a parameter, gathered in the
    class [Runtime]. *)

From Stdlib Require Import ZArith List String Ascii Bool Lia.
From Stdlib Require Import PrimFloat FloatOps SpecFloat.
From Stdlib Require Import Reals Lra.
Import ListNotations.

#[local] Set Warnings "-inexact-float,-register-all".
#[local] Close Scope R_scope.
#[local] Open Scope string_scope.
#[local] Open Scope Z_scope.

(* ===================================================================== *)
(** ** Python values and exceptions *)
(* ===================================================================== *)

(** The values [json.loads] / [request.get_json()] can hand to the code.
    A [dict] keeps its items in insertion order; its keys are strings. *)
Inductive pyval : Type :=
| PyNone
| PyBool (b : bool)
| PyInt (z : Z)
| PyFloat (f : float)
| PyStr (s : string)
| PyList (l : list pyval)
| PyDict (d : list (string * pyval)).

(** Exceptions below [Exception]: the class, and the text [str(e)] gives. *)
Inductive exn_class : Type :=
| TypeError | AttributeError | ValueError | OverflowError | KeyError
| OtherException (name : string).

Record exn : Type := Exn { exn_cls : exn_class; exn_msg : string }.

(** [str(e)] *)
Definition str_exn (e : exn) : string := exn_msg e.

(** A computation either returns or raises. *)
Inductive result (A : Type) : Type :=
| Ok (a : A)
| Raise (e : exn).
Arguments Ok {A} a.
Arguments Raise {A} e.

Definition bind {A B : Type} (c : result A) (k : A -> result B) : result B :=
  match c with
  | Ok a => k a
  | Raise e => Raise e
  end.

Declare Scope py_scope.
Delimit Scope py_scope with py.
Notation "x <- c ;; k" := (bind c (fun x => k))
  (at level 61, c at next level, right associativity) : py_scope.
#[local] Open Scope py_scope.

(** [type(v).__name__] *)
Definition type_name (v : pyval) : string :=
  match v with
  | PyNone => "NoneType"
  | PyBool _ => "bool"
  | PyInt _ => "int"
  | PyFloat _ => "float"
  | PyStr _ => "str"
  | PyList _ => "list"
  | PyDict _ => "dict"
  end.

Definition no_attribute {A : Type} (tn attr : string) : result A :=
  Raise (Exn AttributeError
           ("'" ++ tn ++ "' object has no attribute '" ++ attr ++ "'")).

(** Truth value of an object, as [if v], [not v] and [a if v else b] use it. *)
Definition truthy (v : pyval) : bool :=
  match v with
  | PyNone => false
  | PyBool b => b
  | PyInt z => negb (z =? 0)
  | PyFloat f => negb (f =? 0)%float
  | PyStr s => negb (s =? "")%string
  | PyList l => match l with [] => false | _ => true end
  | PyDict d => match d with [] => false | _ => true end
  end.

(** *** Dictionaries *)

Fixpoint lookup (k : string) (d : list (string * pyval)) : option pyval :=
  match d with
  | [] => None
  | (k', v) :: d' => if (k' =? k)%string then Some v else lookup k d'
  end.

(** [d.get(k, default)] on a dict [d] *)
Definition dict_get (d : list (string * pyval)) (k : string) (default : pyval)
  : pyval :=
  match lookup k d with
  | Some v => v
  | None => default
  end.

(** [k in d] on a dict [d] *)
Definition has_key (k : string) (d : list (string * pyval)) : bool :=
  match lookup k d with
  | Some _ => true
  | None => false
  end.

(** [v.get]: the bound method of a dict; any other JSON value has none. *)
Definition attr_get (v : pyval) : result (string -> pyval -> pyval) :=
  match v with
  | PyDict d => Ok (dict_get d)
  | _ => no_attribute (type_name v) "get"
  end.

(** *** Arithmetic *)

(** [math.pi] *)
Definition math_pi : float := 0x1.921fb54442d18p+1%float.

(** Conversion of an int to a float where an operator mixes the two:
    round to nearest even, [OverflowError] past the largest double. *)
Definition float_of_Z (z : Z) : float :=
  SF2Prim (binary_normalize prec emax z 0 false).

Definition int_to_float (z : Z) : result float :=
  let f := float_of_Z z in
  if is_infinity f
  then Raise (Exn OverflowError "int too large to convert to float")
  else Ok f.

Definition unsupported {A : Type} (op l r : string) : result A :=
  Raise (Exn TypeError
           ("unsupported operand type(s) for " ++ op ++ ": '" ++ l ++
            "' and '" ++ r ++ "'")).

(** [v - n] for an int literal [n] *)
Definition sub_int (v : pyval) (n : Z) : result pyval :=
  match v with
  | PyBool b => Ok (PyInt (Z.b2z b - n))
  | PyInt z => Ok (PyInt (z - n))
  | PyFloat f => Ok (PyFloat (f - float_of_Z n)%float)
  | _ => unsupported "-" (type_name v) "int"
  end.

(** [a * v] for a float [a] *)
Definition float_mul (a : float) (v : pyval) : result float :=
  match v with
  | PyBool b => Ok (a * float_of_Z (Z.b2z b))%float
  | PyInt z => f <- int_to_float z ;; Ok (a * f)%float
  | PyFloat f => Ok (a * f)%float
  | PyStr _ | PyList _ =>
      Raise (Exn TypeError "can't multiply sequence by non-int of type 'float'")
  | PyNone | PyDict _ => unsupported "*" "float" (type_name v)
  end.

(** *** Containers *)

(** [k in v] for a string [k]: key of a dict, element of a list, substring
    of a str; the other JSON values are not containers. *)
Definition contains (k : string) (v : pyval) : result bool :=
  match v with
  | PyDict d => Ok (has_key k d)
  | PyList l =>
      Ok (existsb (fun x => match x with
                            | PyStr s => (s =? k)%string
                            | _ => false
                            end) l)
  | PyStr s => Ok (match String.index 0 k s with Some _ => true | None => false end)
  | _ => Raise (Exn TypeError
                  ("argument of type '" ++ type_name v ++ "' is not iterable"))
  end.

(** [v[k]] for a string [k] *)
Definition subscript (v : pyval) (k : string) : result pyval :=
  match v with
  | PyDict d =>
      match lookup k d with
      | Some x => Ok x
      | None => Raise (Exn KeyError ("'" ++ k ++ "'"))
      end
  | PyList _ =>
      Raise (Exn TypeError "list indices must be integers or slices, not str")
  | PyStr _ =>
      Raise (Exn TypeError "string indices must be integers, not 'str'")
  | _ => Raise (Exn TypeError
                  ("'" ++ type_name v ++ "' object is not subscriptable"))
  end.

Fixpoint chars (s : string) : list pyval :=
  match s with
  | EmptyString => []
  | String c s' => PyStr (String c EmptyString) :: chars s'
  end.

(** The items a [for] loop over [v] visits: the elements of a list, the keys
    of a dict, the characters of a str. *)
Definition iterate (v : pyval) : result (list pyval) :=
  match v with
  | PyList l => Ok l
  | PyDict d => Ok (map (fun kv => PyStr (fst kv)) d)
  | PyStr s => Ok (chars s)
  | _ => Raise (Exn TypeError
                  ("'" ++ type_name v ++ "' object is not iterable"))
  end.

(** [s.endswith(suffix)] *)
Definition endswith (s suffix : string) : bool :=
  let n := String.length s in
  let m := String.length suffix in
  (m <=? n)%nat && (substring (n - m) m s =? suffix)%string.

(** [v == s] for a str literal [s] *)
Definition eq_str (v : pyval) (s : string) : bool :=
  match v with
  | PyStr s' => (s' =? s)%string
  | _ => false
  end.

(* ===================================================================== *)
(** ** What the module imports *)
(* ===================================================================== *)

(** [math.sin] and [math.cos] take a float and return a float or raise
    ([ValueError] on an infinity); [numpy.array] builds the model's input from
    a list of rows; [json.loads] parses a request body. *)
Class Runtime : Type := {
  math_sin : float -> result float;
  math_cos : float -> result float;
  ndarray : Type;
  np_array : list (list pyval) -> result ndarray;
  json_loads : string -> result pyval;
}.

(** What [pickle.load] can hand back, as far as the module tells objects
    apart: [None], a dict, an object with a [predict] method (an estimator:
    its class name and what it answers to [float(model.predict(X)[0])]), an
    object of any other class. *)
Inductive pyobject {RT : Runtime} : Type :=
| ObjNone
| ObjDict (items : list (string * pyobject))
| ObjEstimator (cls : string) (predict : ndarray -> result float)
| ObjOther (cls : string).

Section Service.
Context {RT : Runtime}.

(** [type(o).__name__]; the class of an estimator is the unpickled one's. *)
Definition object_type_name (o : pyobject) : string :=
  match o with
  | ObjNone => "NoneType"
  | ObjDict _ => "dict"
  | ObjEstimator cls _ => cls
  | ObjOther cls => cls
  end.

Fixpoint lookup_object (k : string) (d : list (string * pyobject))
  : option pyobject :=
  match d with
  | [] => None
  | (k', v) :: d' => if (k' =? k)%string then Some v else lookup_object k d'
  end.

(** [o is None] *)
Definition is_none (o : pyobject) : bool :=
  match o with
  | ObjNone => true
  | _ => false
  end.

(** [float(model.predict(X)[0])] *)
Definition model_predict (model : pyobject) (X : ndarray) : result float :=
  match model with
  | ObjEstimator _ predict => predict X
  | _ => no_attribute (object_type_name model) "predict"
  end.

(* ===================================================================== *)
(** ** load_model *)
(* ===================================================================== *)

Definition MODEL_PATH : string := "random_forest_model.pkl".

(** The module's globals that the functions read or write, and what it has
    printed. *)
Record globals : Type := Globals {
  model : pyobject;
  stdout : list string;
}.

(** [model = None] *)
Definition initial : globals := Globals ObjNone [].

(** [load_model()].  [unpickled] is what [open(MODEL_PATH, 'rb')] followed by
    [pickle.load(f)] does in the process's working directory: it returns the
    object or raises. *)
Definition load_model (unpickled : result pyobject) (g : globals)
  : globals * bool :=
  match unpickled with
  | Ok model_data =>
      let m :=
        match model_data with
        | ObjDict d =>
            match lookup_object "model" d with
            | Some x => x
            | None => model_data
            end
        | _ => model_data
        end in
      (Globals m (stdout g ++ ["Model loaded successfully from " ++ MODEL_PATH]),
       true)
  | Raise e =>
      (Globals (model g) (stdout g ++ ["Error loading model: " ++ str_exn e]),
       false)
  end.

(* ===================================================================== *)
(** ** transform_features_for_prediction *)
(* ===================================================================== *)

(** [2 * math.pi * (hour - 6) / 12] *)
Definition hour_phase (hour : pyval) : result float :=
  d <- sub_int hour 6 ;;
  p <- float_mul (2 * math_pi) d ;;
  Ok (p / 12)%float.

(** [1.0 + 0.3 * math.sin(2 * math.pi * (hour - 6) / 12)] *)
Definition hour_multiplier_of (hour : pyval) : result float :=
  a <- hour_phase hour ;;
  s <- math_sin a ;;
  Ok (1.0 + 0.3 * s)%float.

(** [2 * math.pi * v / period] *)
Definition angle (v : pyval) (period : float) : result float :=
  p <- float_mul (2 * math_pi) v ;;
  Ok (p / period)%float.

Definition transform_features_for_prediction (features : pyval)
  : result (list pyval) :=
  get <- attr_get features ;;
  let temperature := get "temperature" (PyFloat 22.0) in
  let humidity := get "humidity" (PyFloat 60.0) in
  let renewable := get "renewable" (PyFloat 0.0) in
  let hour := get "hour" (PyInt 12) in
  let day_of_week := get "day_of_week" (PyInt 1) in
  let month := get "month" (PyInt 6) in
  let is_weekend := get "is_weekend" (PyInt 0) in
  let is_business_hour := get "is_business_hour" (PyInt 1) in
  let base_consumption := 50.0%float in
  hour_multiplier <- hour_multiplier_of hour ;;
  let weekend_multiplier := (if truthy is_weekend then 1.2 else 1.0)%float in
  let business_multiplier :=
    (if truthy is_business_hour then 1.1 else 0.8)%float in
  let consumption_lag_1h :=
    (base_consumption * hour_multiplier * weekend_multiplier
     * business_multiplier)%float in
  let consumption_lag_24h := (consumption_lag_1h * 0.95)%float in
  let consumption_lag_168h := (consumption_lag_1h * 0.9)%float in
  let temperature_rolling_24h := temperature in
  let humidity_rolling_24h := humidity in
  a <- angle hour 24 ;; hour_sin <- math_sin a ;;
  a <- angle hour 24 ;; hour_cos <- math_cos a ;;
  a <- angle day_of_week 7 ;; day_sin <- math_sin a ;;
  a <- angle day_of_week 7 ;; day_cos <- math_cos a ;;
  a <- angle month 12 ;; month_sin <- math_sin a ;;
  a <- angle month 12 ;; month_cos <- math_cos a ;;
  let avg_consumption_same_hour := (base_consumption * hour_multiplier)%float in
  let avg_consumption_same_day :=
    (base_consumption * weekend_multiplier)%float in
  Ok [ PyFloat consumption_lag_1h; PyFloat consumption_lag_24h;
       PyFloat consumption_lag_168h;
       temperature_rolling_24h; humidity_rolling_24h;
       PyFloat hour_sin; PyFloat hour_cos; PyFloat day_sin; PyFloat day_cos;
       PyFloat month_sin; PyFloat month_cos;
       PyFloat avg_consumption_same_hour; PyFloat avg_consumption_same_day;
       is_weekend; is_business_hour; renewable ].

(* ===================================================================== *)
(** ** The Flask views *)
(* ===================================================================== *)

(** A Flask response: the status and the object given to [jsonify]. *)
Record response : Type := Response {
  status : Z;
  body : pyval;
}.

(** [{'success': False, 'error': msg}] *)
Definition failure (msg : string) : pyval :=
  PyDict [("success", PyBool false); ("error", PyStr msg)].

(** [{'success': True, 'predictions': predictions}] *)
Definition success (predictions : list pyval) : pyval :=
  PyDict [("success", PyBool true); ("predictions", PyList predictions)].

(** [{'status': 'healthy', 'model_loaded': model is not None,
      'timestamp': datetime.now().isoformat()}]; [now] is the clock's text. *)
Definition health_report (g : globals) (now : string) : pyval :=
  PyDict [("status", PyStr "healthy");
          ("model_loaded", PyBool (negb (is_none (model g))));
          ("timestamp", PyStr now)].

(** [health()], routed from [GET /api/health] *)
Definition health (g : globals) (now : string) : response :=
  Response 200 (health_report g now).

(** The loop of [predict] (lines 106-115), which [handler] repeats word for
    word (lines 168-177): [idx] counts from the [enumerate] start. *)
Fixpoint predictions_from (idx : Z) (g : globals) (items : list pyval)
  : result (list pyval) :=
  match items with
  | [] => Ok []
  | features :: rest =>
      feature_values <- transform_features_for_prediction features ;;
      X <- np_array [feature_values] ;;
      prediction <- model_predict (model g) X ;;
      get <- attr_get features ;;
      let entry := PyDict [("index", PyInt idx);
                           ("predicted", PyFloat prediction);
                           ("timestamp", get "timestamp" PyNone)] in
      more <- predictions_from (idx + 1) g rest ;;
      Ok (entry :: more)
  end.

(** [not data or 'features' not in data] *)
Definition invalid_request (data : pyval) : result bool :=
  if negb (truthy data) then Ok true
  else c <- contains "features" data ;; Ok (negb c).

(** [predict()], routed from [POST /api/predict].  [get_json] is what
    [request.get_json()] does on the request at hand: it returns the parsed
    body or raises. *)
Definition predict (g : globals) (get_json : result pyval) : response :=
  if is_none (model g) then Response 503 (failure "Model not loaded")
  else
    let attempt : result response :=
      data <- get_json ;;
      invalid <- invalid_request data ;;
      if invalid then Ok (Response 400 (failure "Invalid request"))
      else
        features_list <- subscript data "features" ;;
        items <- iterate features_list ;;
        predictions <- predictions_from 0 g items ;;
        Ok (Response 200 (success predictions)) in
    match attempt with
    | Ok r => r
    | Raise e => Response 500 (failure (str_exn e))
    end.

(* ===================================================================== *)
(** ** The serverless handler *)
(* ===================================================================== *)

(** The ['body'] of what [handler] returns: a str literal or
    [json.dumps] of an object. *)
Inductive text : Type :=
| Literal (s : string)
| JsonDumps (v : pyval).

Record lambda_response : Type := LambdaResponse {
  statusCode : Z;
  headers : list (string * string);
  lambda_body : text;
}.

Definition allow_origin : string * string :=
  ("Access-Control-Allow-Origin", "*").

Definition content_json : string * string :=
  ("Content-Type", "application/json").

(** [event.get('path', '').endswith('/health')] *)
Definition path_is_health (get : string -> pyval -> pyval) : result bool :=
  match get "path" (PyStr "") with
  | PyStr p => Ok (endswith p "/health")
  | v => no_attribute (type_name v) "endswith"
  end.

(** [json.loads(event['body']) if isinstance(event['body'], str)
     else event['body']] *)
Definition body_data (event : pyval) : result pyval :=
  raw <- subscript event "body" ;;
  match raw with
  | PyStr s => json_loads s
  | _ => Ok raw
  end.

(** [handler(event, context)]; [context] is never read. *)
Definition handler (g : globals) (now : string) (event : pyval)
  : lambda_response :=
  let attempt : result lambda_response :=
    get <- attr_get event ;;
    if eq_str (get "httpMethod" PyNone) "OPTIONS" then
      Ok (LambdaResponse 200
            [allow_origin;
             ("Access-Control-Allow-Methods", "GET, POST, OPTIONS");
             ("Access-Control-Allow-Headers", "Content-Type")]
            (Literal ""))
    else
      is_health <- (if eq_str (get "httpMethod" PyNone) "GET"
                    then path_is_health get else Ok false) ;;
      if is_health then
        Ok (LambdaResponse 200 [content_json; allow_origin]
              (JsonDumps (health_report g now)))
      else
        is_post <- (if eq_str (get "httpMethod" PyNone) "POST"
                    then contains "body" event else Ok false) ;;
        if is_post then
          data <- body_data event ;;
          invalid <- invalid_request data ;;
          if invalid then
            Ok (LambdaResponse 400 [allow_origin]
                  (JsonDumps (failure "Invalid request")))
          else
            features_list <- subscript data "features" ;;
            items <- iterate features_list ;;
            predictions <- predictions_from 0 g items ;;
            Ok (LambdaResponse 200 [content_json; allow_origin]
                  (JsonDumps (success predictions)))
        else
          Ok (LambdaResponse 404 [allow_origin]
                (JsonDumps (PyDict [("error", PyStr "Not found")]))) in
  match attempt with
  | Ok r => r
  | Raise e =>
      LambdaResponse 500 [allow_origin] (JsonDumps (failure (str_exn e)))
  end.

End Service.

(* ===================================================================== *)
(** ** A runtime to run the service on *)
(* ===================================================================== *)

(** A stand-in for the C library: the correctly rounded [sin] at the double
    nearest to pi (what glibc returns there), the exact values at zero, a
    domain error on an infinity as [math.sin] and [math.cos] raise it, and a
    crude constant elsewhere.  [numpy.array] keeps the rows; [json.loads]
    knows three request bodies. *)
Definition domain_error : exn := Exn ValueError "math domain error".

Definition table_sin (x : float) : result float :=
  if is_infinity x then Raise domain_error
  else if is_nan x then Ok nan
  else if (x =? math_pi)%float then Ok 0x1.1a62633145c07p-53%float
  else if (x =? 0)%float then Ok x
  else Ok 0.5%float.

Definition table_cos (x : float) : result float :=
  if is_infinity x then Raise domain_error
  else if is_nan x then Ok nan
  else if (x =? math_pi)%float then Ok (-1.0)%float
  else if (x =? 0)%float then Ok 1.0%float
  else Ok 0.5%float.

Definition table_loads (s : string) : result pyval :=
  if (s =? "{}")%string then Ok (PyDict [])
  else if (s =? "[]")%string then Ok (PyList [])
  else if (s =? "null")%string then Ok PyNone
  else Raise (Exn ValueError "Expecting value: line 1 column 1 (char 0)").

Definition table_runtime : Runtime := {|
  math_sin := table_sin;
  math_cos := table_cos;
  ndarray := list (list pyval);
  np_array := fun rows => Ok rows;
  json_loads := table_loads;
|}.

(** A fitted estimator that answers 42.5 to every row. *)
Definition constant_estimator (RT : Runtime) : pyobject :=
  ObjEstimator "RandomForestRegressor" (fun _ => Ok 42.5%float).

(** Globals after a successful load. *)
Definition loaded : @globals table_runtime :=
  Globals (constant_estimator table_runtime)
          ["Model loaded successfully from random_forest_model.pkl"].

(** The request of the specification's example. *)
Definition noon_weekday : pyval :=
  PyDict [("hour", PyInt 12); ("is_weekend", PyInt 0);
          ("is_business_hour", PyInt 1)].

(** A batch of two, the second with a timestamp. *)
Definition morning_batch : pyval :=
  PyDict [("features",
           PyList [noon_weekday;
                   PyDict [("timestamp", PyStr "2024-03-01T09:00:00")]])].

(* ===================================================================== *)
(** ** Vocabulary of the statements *)
(* ===================================================================== *)

(** The event a gateway builds for a request without a body. *)
Definition get_event (path : string) : pyval :=
  PyDict [("httpMethod", PyStr "GET"); ("path", PyStr path)].

(** The event a gateway builds for a POST; [payload] is the body, as text or
    already parsed. *)
Definition post_event (path : string) (payload : pyval) : pyval :=
  PyDict [("httpMethod", PyStr "POST"); ("path", PyStr path);
          ("body", payload)].

(** The two entry points give the same status and the same JSON. *)
Definition same_answer (r : response) (l : lambda_response) : Prop :=
  statusCode l = status r /\ lambda_body l = JsonDumps (body r).

(** The fields the transformer reads. *)
Definition input_fields : list string :=
  ["temperature"; "humidity"; "renewable"; "hour"; "day_of_week"; "month";
   "is_weekend"; "is_business_hour"].

(** The defaults of the eight [features.get] calls, as a dict. *)
Definition defaults : list (string * pyval) :=
  [("temperature", PyFloat 22.0); ("humidity", PyFloat 60.0);
   ("renewable", PyFloat 0.0); ("hour", PyInt 12); ("day_of_week", PyInt 1);
   ("month", PyInt 6); ("is_weekend", PyInt 0); ("is_business_hour", PyInt 1)].

(** The list [transform_features_for_prediction] returns, from the dict and
    the seven floats its calls to [math.sin] and [math.cos] produced. *)
Definition feature_vector (d : list (string * pyval))
           (hm hs hc ds dc ms mc : float) : list pyval :=
  let wm := (if truthy (dict_get d "is_weekend" (PyInt 0))
             then 1.2 else 1.0)%float in
  let bm := (if truthy (dict_get d "is_business_hour" (PyInt 1))
             then 1.1 else 0.8)%float in
  let lag := (50.0 * hm * wm * bm)%float in
  [ PyFloat lag; PyFloat (lag * 0.95)%float; PyFloat (lag * 0.9)%float;
    dict_get d "temperature" (PyFloat 22.0);
    dict_get d "humidity" (PyFloat 60.0);
    PyFloat hs; PyFloat hc; PyFloat ds; PyFloat dc; PyFloat ms; PyFloat mc;
    PyFloat (50.0 * hm)%float; PyFloat (50.0 * wm)%float;
    dict_get d "is_weekend" (PyInt 0);
    dict_get d "is_business_hour" (PyInt 1);
    dict_get d "renewable" (PyFloat 0.0) ].

(** A field that is absent, or an int between [lo] and [hi]. *)
Definition int_between (lo hi : Z) (o : option pyval) : bool :=
  match o with
  | None => true
  | Some (PyInt z) => (lo <=? z) && (z <=? hi)
  | Some _ => false
  end.

(** A dict whose hour, day of week and month, where present, are ints a
    calendar has: hours 0 to 23, days 0 to 7 (from Monday = 0 or from
    Monday = 1), months 0 to 12 (from January = 0 or from January = 1).  The
    other fields may hold anything. *)
Definition calendar (features : pyval) : bool :=
  match features with
  | PyDict d =>
      int_between 0 23 (lookup "hour" d)
      && int_between 0 7 (lookup "day_of_week" d)
      && int_between 0 12 (lookup "month" d)
  | _ => false
  end.

Definition returns_finite (c : result float) : bool :=
  match c with
  | Ok a => is_finite a
  | Raise _ => false
  end.

Definition not_infinite (c : result float) : bool :=
  match c with
  | Ok a => negb (is_infinity a)
  | Raise _ => false
  end.

(** A dict whose hour, day of week and month (the default where absent) are
    numbers from which the phase of the hour multiplier and the three
    encoded angles can be computed, none of them an infinity. *)
Definition encodable (features : pyval) : bool :=
  match features with
  | PyDict d =>
      not_infinite (hour_phase (dict_get d "hour" (PyInt 12)))
      && not_infinite (angle (dict_get d "hour" (PyInt 12)) 24)
      && not_infinite (angle (dict_get d "day_of_week" (PyInt 1)) 7)
      && not_infinite (angle (dict_get d "month" (PyInt 6)) 12)
  | _ => false
  end.

(** The ints from [lo] to [hi]. *)
Definition ints (lo hi : Z) : list Z :=
  map (fun n => lo + Z.of_nat n) (seq 0 (Z.to_nat (hi - lo + 1))).

(** Two items that are dicts with the same value, or the same absence,
    under every key but [timestamp]. *)
Definition differ_only_in_timestamp (f1 f2 : pyval) : Prop :=
  exists d1 d2, f1 = PyDict d1 /\ f2 = PyDict d2 /\
                forall k, k <> "timestamp" -> lookup k d1 = lookup k d2.

(** [v.get(k)] where [v] is a dict, [None] elsewhere *)
Definition item (k : string) (v : pyval) : pyval :=
  match v with
  | PyDict d => dict_get d k PyNone
  | _ => PyNone
  end.

(** The [predicted] values of a response body, in order. *)
Definition predicted_values (b : pyval) : list pyval :=
  match item "predictions" b with
  | PyList ps => map (item "predicted") ps
  | _ => []
  end.

(** The three angles the transformer encodes. *)
Definition encoded_angles (features : pyval) : list (result float) :=
  match features with
  | PyDict d =>
      [ angle (dict_get d "hour" (PyInt 12)) 24;
        angle (dict_get d "day_of_week" (PyInt 1)) 7;
        angle (dict_get d "month" (PyInt 6)) 12 ]
  | _ => []
  end.

(** The double a number enters float arithmetic as: a bool as 0.0 or 1.0, an
    int rounded to the nearest double, a float as it is.  The other values
    are no numbers. *)
Definition as_double (v : pyval) : option float :=
  match v with
  | PyBool b => Some (if b then 1 else 0)%float
  | PyInt z => Some (float_of_Z z)
  | PyFloat x => Some x
  | _ => None
  end.

(** The double that [hour - 6] enters float arithmetic as: the difference is
    taken in the ints where the hour is a bool or an int, and in the doubles
    where it is a float. *)
Definition less_6 (v : pyval) : option float :=
  match v with
  | PyBool b => Some (if b then -5 else -6)%float
  | PyInt z => Some (float_of_Z (z - 6))
  | PyFloat x => Some (x - 6)%float
  | _ => None
  end.

(** The real number a finite double stands for (0 for the others). *)
Definition SF2R (x : spec_float) : R :=
  match x with
  | S754_finite s m e =>
      let v := (IZR (Zpos m) * powerRZ 2 e)%R in
      if s then (- v)%R else v
  | _ => 0%R
  end.

Definition F2R (f : float) : R := SF2R (Prim2SF f).

(** How far from 1 the squares of a pair add up. *)
Definition off_unit_circle (s c : float) : R :=
  Rabs (F2R s * F2R s + F2R c * F2R c - 1)%R.

Section Assumptions.
Context {RT : Runtime}.

(** What has to return for the transformer to return on the dict [d]. *)
Definition steps (d : list (string * pyval))
           (hm hs hc ds dc ms mc : float) : Prop :=
  hour_multiplier_of (dict_get d "hour" (PyInt 12)) = Ok hm /\
  (exists a, angle (dict_get d "hour" (PyInt 12)) 24 = Ok a /\
             math_sin a = Ok hs /\ math_cos a = Ok hc) /\
  (exists a, angle (dict_get d "day_of_week" (PyInt 1)) 7 = Ok a /\
             math_sin a = Ok ds /\ math_cos a = Ok dc) /\
  (exists a, angle (dict_get d "month" (PyInt 6)) 12 = Ok a /\
             math_sin a = Ok ms /\ math_cos a = Ok mc).

(** [math.sin] and [math.cos] raise on the two infinities and return on
    every other float (a NaN on a NaN). *)
Definition trig_domain : Prop :=
  forall x,
    if is_infinity x
    then (exists e, math_sin x = Raise e) /\ (exists e, math_cos x = Raise e)
    else (exists s, math_sin x = Ok s) /\ (exists c, math_cos x = Ok c).

(** [math.sin] and [math.cos] are within [eps] of the sine and the cosine at
    the finite double [a]. *)
Definition trig_accurate (eps : R) (a : float) : Prop :=
  is_finite a = true /\
  forall s c, math_sin a = Ok s -> math_cos a = Ok c ->
    is_finite s = true /\ is_finite c = true /\
    (Rabs (F2R s - sin (F2R a)) <= eps)%R /\
    (Rabs (F2R c - cos (F2R a)) <= eps)%R.

End Assumptions.

Section Batches.
Context {RT : Runtime}.

(** What one turn of the loop asks of an item before it builds the entry:
    [float(model.predict(np.array([transform(features)]))[0])]. *)
Definition item_prediction (g : globals) (features : pyval) : result float :=
  feature_values <- transform_features_for_prediction features ;;
  X <- np_array [feature_values] ;;
  model_predict (model g) X.

(** The entry the loop appends for an item, its index and its prediction. *)
Definition entry_of (idx : Z) (features : pyval) (prediction : float) : pyval :=
  PyDict [("index", PyInt idx); ("predicted", PyFloat prediction);
          ("timestamp", item "timestamp" features)].

End Batches.

(** The response of [handler] to what it does not route. *)
Definition not_found : lambda_response :=
  LambdaResponse 404 [allow_origin]
                 (JsonDumps (PyDict [("error", PyStr "Not found")])).

(** The response of [handler] to a CORS preflight. *)
Definition preflight : lambda_response :=
  LambdaResponse 200
    [allow_origin;
     ("Access-Control-Allow-Methods", "GET, POST, OPTIONS");
     ("Access-Control-Allow-Headers", "Content-Type")]
    (Literal "").

(** An event, given as its dict, that none of the three tests of [handler]
    takes: a method other than OPTIONS, GET and POST (or none), a POST
    without a [body] key, a GET whose path is absent or a str that does not
    end in [/health]. *)
Definition unrouted (d : list (string * pyval)) : Prop :=
  let m := dict_get d "httpMethod" PyNone in
  (eq_str m "OPTIONS" = false /\ eq_str m "GET" = false /\
   eq_str m "POST" = false) \/
  (eq_str m "POST" = true /\ lookup "body" d = None) \/
  (eq_str m "GET" = true /\
   (lookup "path" d = None \/
    exists p, lookup "path" d = Some (PyStr p) /\
              endswith p "/health" = false)).

(** The keys of an event that [handler] reads. *)
Definition event_keys : list string := ["httpMethod"; "path"; "body"].

(** What [pickle.load] returned leaves the global [model] at [None]: it is
    [None] itself, or a dict whose [model] entry is [None]. *)
Definition unpickles_to_none {RT : Runtime} (u : result pyobject) : Prop :=
  u = Ok ObjNone \/
  exists d, u = Ok (ObjDict d) /\ lookup_object "model" d = Some ObjNone.

(* ===================================================================== *)
(** ** The error monad *)
(* ===================================================================== *)

Lemma Ok_inj {A : Type} (a b : A) : Ok a = Ok b -> a = b.
Proof.
  intros H.
  exact (f_equal (fun r => match r with Ok x => x | Raise _ => a end) H).
Qed.

Lemma bind_Ok {A B : Type} (a : A) (k : A -> result B) : bind (Ok a) k = k a.
Proof. reflexivity. Qed.

Lemma bind_Ok_inv {A B : Type} (c : result A) (k : A -> result B) (b : B) :
  bind c k = Ok b -> exists a, c = Ok a /\ k a = Ok b.
Proof.
  destruct c as [a|e]; simpl; intros H; [eauto | discriminate].
Qed.

Ltac bind_inv H :=
  let a := fresh "a" in
  let Ha := fresh "Ha" in
  apply bind_Ok_inv in H; destruct H as (a & Ha & H).

Section Properties.
Context {RT : Runtime}.

(* ===================================================================== *)
(** ** The loader and the health report *)
(* ===================================================================== *)

Lemma is_none_spec (o : pyobject) : is_none o = true <-> o = ObjNone.
Proof.
  destruct o; simpl; split; intros H; try reflexivity; discriminate.
Qed.

(** C9: [GET /api/health] answers 200 whatever the loader did, with the
    status text, the clock's timestamp and a boolean [model_loaded] that is
    true exactly when the global [model] is not [None]; the serverless
    handler gives the same report for the same request. *)
Theorem health_always_200 (g : globals) (now : string) :
  status (health g now) = 200 /\
  (exists is_loaded : bool,
      body (health g now)
      = PyDict [("status", PyStr "healthy");
                ("model_loaded", PyBool is_loaded);
                ("timestamp", PyStr now)] /\
      (is_loaded = true <-> model g <> ObjNone)) /\
  same_answer (health g now) (handler g now (get_event "/api/health")).
Proof.
  split; [reflexivity|]. split.
  - exists (negb (is_none (model g))). split; [reflexivity|].
    rewrite negb_true_iff, <- not_true_iff_false, is_none_spec. tauto.
  - split; reflexivity.
Qed.

(** C7: when unpickling raises (no file, corrupt data), [load_model] catches
    the exception, prints it, returns [False] and leaves the global [model]
    as it was, so [None] at start-up; it returns normally, and the health
    report that follows says [model_loaded: false] with status 200, while
    [predict] answers 503. *)
Theorem load_model_failure (e : exn) (g : globals) (now : string) :
  snd (load_model (Raise e) g) = false /\
  model (fst (load_model (Raise e) g)) = model g /\
  model (fst (load_model (Raise e) initial)) = ObjNone /\
  stdout (fst (load_model (Raise e) g))
  = (stdout g ++ [("Error loading model: " ++ str_exn e)%string])%list /\
  health (fst (load_model (Raise e) initial)) now
  = Response 200 (PyDict [("status", PyStr "healthy");
                          ("model_loaded", PyBool false);
                          ("timestamp", PyStr now)]) /\
  predict (fst (load_model (Raise e) initial)) (Ok (PyDict []))
  = Response 503 (failure "Model not loaded").
Proof.
  repeat split; reflexivity.
Qed.

(* ===================================================================== *)
(** ** The two entry points *)
(* ===================================================================== *)

Lemma predict_unloaded (g : globals) (get_json : result pyval) :
  model g = ObjNone ->
  predict g get_json = Response 503 (failure "Model not loaded").
Proof.
  intros H. unfold predict. now rewrite H.
Qed.

(** C2 (the code departs from it): with [model] unset the Flask view answers
    503 and the error text of the claim to every payload, also to a body
    that does not parse; [handler] has no such test, and answers the payload
    [{}] with 400 and another error text. *)
Theorem handler_answers_400_unloaded (now path : string)
        (get_json : result pyval) (out : list string) :
  predict (Globals ObjNone out) get_json
  = Response 503 (failure "Model not loaded") /\
  handler (Globals ObjNone out) now (post_event path (PyDict []))
  = LambdaResponse 400 [allow_origin] (JsonDumps (failure "Invalid request")) /\
  statusCode (handler (Globals ObjNone out) now (post_event path (PyDict [])))
  <> 503.
Proof.
  repeat split; try reflexivity. discriminate.
Qed.

(** C1 (the code departs from it): for the request [POST /api/predict] whose
    body holds an empty [features] list, with [model] unset, the Flask view
    answers 503 with an error body and [handler] answers 200 with
    [success: true] and no predictions. *)
Theorem entry_points_differ_unloaded (now : string) (out : list string) :
  let request := PyDict [("features", PyList [])] in
  predict (Globals ObjNone out) (Ok request)
  = Response 503 (failure "Model not loaded") /\
  handler (Globals ObjNone out) now (post_event "/api/predict" request)
  = LambdaResponse 200 [content_json; allow_origin] (JsonDumps (success [])) /\
  ~ same_answer (predict (Globals ObjNone out) (Ok request))
                (handler (Globals ObjNone out) now
                   (post_event "/api/predict" request)).
Proof.
  cbv zeta. repeat split; try reflexivity.
  intros (S & _). discriminate S.
Qed.

(** With a model loaded the two entry points do agree on every POST whose
    body the handler reads as the data [request.get_json()] returned: the
    guard on [model] is all that [handler] lacks. *)
Lemma entry_points_agree_when_loaded (g : globals) (now path : string)
      (payload data : pyval) :
  is_none (model g) = false ->
  match payload with PyStr s => json_loads s | _ => Ok payload end = Ok data ->
  same_answer (predict g (Ok data)) (handler g now (post_event path payload)).
Proof.
  intros L D. unfold predict, handler. rewrite L.
  unfold post_event. simpl attr_get. rewrite !bind_Ok.
  change (dict_get [("httpMethod", PyStr "POST"); ("path", PyStr path);
                    ("body", payload)] "httpMethod" PyNone)
    with (PyStr "POST").
  change (eq_str (PyStr "POST") "OPTIONS") with false.
  change (eq_str (PyStr "POST") "GET") with false.
  change (eq_str (PyStr "POST") "POST") with true.
  cbv iota. rewrite !bind_Ok. cbv iota.
  change (contains "body" (PyDict [("httpMethod", PyStr "POST");
                                   ("path", PyStr path); ("body", payload)]))
    with (@Ok bool true).
  rewrite bind_Ok. cbv iota.
  unfold body_data.
  change (subscript (PyDict [("httpMethod", PyStr "POST");
                             ("path", PyStr path); ("body", payload)]) "body")
    with (Ok payload).
  rewrite bind_Ok, D, !bind_Ok.
  destruct (invalid_request data) as [[|]|e]; try (split; reflexivity).
  rewrite !bind_Ok.
  destruct (subscript data "features") as [fl|e]; [|split; reflexivity].
  rewrite !bind_Ok.
  destruct (iterate fl) as [items|e]; [|split; reflexivity].
  rewrite !bind_Ok.
  destruct (predictions_from 0 g items) as [ps|e]; split; reflexivity.
Qed.

(* ===================================================================== *)
(** ** The transformer, step by step *)
(* ===================================================================== *)

Lemma transform_inv (features : pyval) (v : list pyval) :
  transform_features_for_prediction features = Ok v ->
  exists d hm hs hc ds dc ms mc,
    features = PyDict d /\ steps d hm hs hc ds dc ms mc /\
    v = feature_vector d hm hs hc ds dc ms mc.
Proof.
  unfold transform_features_for_prediction. intros H.
  destruct features as [| | | | | |d]; try discriminate H.
  simpl attr_get in H. rewrite bind_Ok in H. cbv zeta in H.
  bind_inv H. rename a into hm, Ha into Hhm.
  bind_inv H. rename a into a1, Ha into Ha1.
  bind_inv H. rename a into hs, Ha into Hhs.
  bind_inv H. rename a into a1', Ha into Ha1'.
  bind_inv H. rename a into hc, Ha into Hhc.
  bind_inv H. rename a into a2, Ha into Ha2.
  bind_inv H. rename a into ds, Ha into Hds.
  bind_inv H. rename a into a2', Ha into Ha2'.
  bind_inv H. rename a into dc, Ha into Hdc.
  bind_inv H. rename a into a3, Ha into Ha3.
  bind_inv H. rename a into ms, Ha into Hms.
  bind_inv H. rename a into a3', Ha into Ha3'.
  bind_inv H. rename a into mc, Ha into Hmc.
  apply Ok_inj in H. subst v.
  assert (a1' = a1) by (rewrite Ha1 in Ha1'; now apply Ok_inj in Ha1').
  assert (a2' = a2) by (rewrite Ha2 in Ha2'; now apply Ok_inj in Ha2').
  assert (a3' = a3) by (rewrite Ha3 in Ha3'; now apply Ok_inj in Ha3').
  subst.
  exists d, hm, hs, hc, ds, dc, ms, mc.
  split; [reflexivity|]. split; [|reflexivity].
  unfold steps. split; [assumption|].
  split; [exists a1; auto|]. split; [exists a2; auto | exists a3; auto].
Qed.

Lemma transform_eval (d : list (string * pyval))
      (hm hs hc ds dc ms mc : float) :
  steps d hm hs hc ds dc ms mc ->
  transform_features_for_prediction (PyDict d)
  = Ok (feature_vector d hm hs hc ds dc ms mc).
Proof.
  intros (Hhm & (a1 & Ha1 & Hhs & Hhc) & (a2 & Ha2 & Hds & Hdc)
          & (a3 & Ha3 & Hms & Hmc)).
  unfold transform_features_for_prediction. simpl attr_get.
  rewrite bind_Ok. cbv zeta.
  rewrite Hhm, bind_Ok.
  rewrite Ha1, bind_Ok, Hhs, bind_Ok, bind_Ok, Hhc, bind_Ok.
  rewrite Ha2, bind_Ok, Hds, bind_Ok, bind_Ok, Hdc, bind_Ok.
  rewrite Ha3, bind_Ok, Hms, bind_Ok, bind_Ok, Hmc, bind_Ok.
  reflexivity.
Qed.

(** The transformer reads the eight input fields and nothing else. *)
Lemma transform_reads (d1 d2 : list (string * pyval)) :
  (forall k, In k input_fields -> lookup k d1 = lookup k d2) ->
  transform_features_for_prediction (PyDict d1)
  = transform_features_for_prediction (PyDict d2).
Proof.
  intros H. unfold transform_features_for_prediction. simpl attr_get.
  rewrite !bind_Ok. unfold dict_get.
  rewrite !(H "temperature"), !(H "humidity"), !(H "renewable"), !(H "hour"),
    !(H "day_of_week"), !(H "month"), !(H "is_weekend"),
    !(H "is_business_hour") by (simpl; tauto).
  reflexivity.
Qed.

Lemma lookup_app (k : string) (d1 d2 : list (string * pyval)) :
  lookup k (d1 ++ d2)
  = match lookup k d1 with Some v => Some v | None => lookup k d2 end.
Proof.
  induction d1 as [|[k' v] d1 IH]; simpl; [reflexivity|].
  destruct (k' =? k)%string; [reflexivity | exact IH].
Qed.

Lemma dict_get_defaults (d : list (string * pyval)) (k : string)
      (dflt : pyval) :
  In (k, dflt) defaults -> dict_get (d ++ defaults) k dflt = dict_get d k dflt.
Proof.
  intros H. unfold dict_get. rewrite lookup_app.
  destruct (lookup k d); [reflexivity|].
  simpl in H.
  repeat (destruct H as [H|H]; [injection H as <- <-; reflexivity|]).
  contradiction.
Qed.

(** An absent field counts as its default. *)
Lemma transform_fills_defaults (d : list (string * pyval)) :
  transform_features_for_prediction (PyDict (d ++ defaults))
  = transform_features_for_prediction (PyDict d).
Proof.
  unfold transform_features_for_prediction. simpl attr_get.
  rewrite !bind_Ok.
  rewrite !(dict_get_defaults d "temperature"), !(dict_get_defaults d "humidity"),
    !(dict_get_defaults d "renewable"), !(dict_get_defaults d "hour"),
    !(dict_get_defaults d "day_of_week"), !(dict_get_defaults d "month"),
    !(dict_get_defaults d "is_weekend"),
    !(dict_get_defaults d "is_business_hour") by (simpl; tauto).
  reflexivity.
Qed.

(** An hour that is no number stops the transformer at [hour - 6]. *)
Lemma transform_rejects_non_numbers (d : list (string * pyval)) :
  match dict_get d "hour" (PyInt 12) with
  | PyNone | PyStr _ | PyList _ | PyDict _ => True
  | _ => False
  end ->
  exists e, transform_features_for_prediction (PyDict d) = Raise e /\
            exn_cls e = TypeError.
Proof.
  intros H. unfold transform_features_for_prediction. simpl attr_get.
  rewrite bind_Ok. cbv zeta. unfold hour_multiplier_of, hour_phase.
  destruct (dict_get d "hour" (PyInt 12)); try contradiction;
    simpl; eexists; split; reflexivity.
Qed.

(* ===================================================================== *)
(** ** Inputs the transformer returns on *)
(* ===================================================================== *)

Lemma ints_forallb (P : Z -> bool) (lo hi : Z) :
  forallb P (ints lo hi) = true ->
  forall z, lo <= z <= hi -> P z = true.
Proof.
  intros H z Hz. rewrite forallb_forall in H. apply H.
  unfold ints. apply in_map_iff. exists (Z.to_nat (z - lo)). split.
  - lia.
  - apply in_seq. lia.
Qed.

Lemma hour_phase_finite (z : Z) :
  0 <= z <= 23 -> returns_finite (hour_phase (PyInt z)) = true.
Proof.
  apply (ints_forallb (fun z => returns_finite (hour_phase (PyInt z)))).
  vm_compute. reflexivity.
Qed.

Lemma angle_finite (z : Z) :
  0 <= z <= 23 ->
  returns_finite (angle (PyInt z) 24) = true /\
  returns_finite (angle (PyInt z) 7) = true /\
  returns_finite (angle (PyInt z) 12) = true.
Proof.
  intros Hz. repeat split.
  - revert z Hz.
    apply (ints_forallb (fun z => returns_finite (angle (PyInt z) 24))).
    vm_compute. reflexivity.
  - revert z Hz.
    apply (ints_forallb (fun z => returns_finite (angle (PyInt z) 7))).
    vm_compute. reflexivity.
  - revert z Hz.
    apply (ints_forallb (fun z => returns_finite (angle (PyInt z) 12))).
    vm_compute. reflexivity.
Qed.

Lemma int_between_get (lo hi dflt : Z) (k : string)
      (d : list (string * pyval)) :
  int_between lo hi (lookup k d) = true -> lo <= dflt <= hi ->
  exists z, dict_get d k (PyInt dflt) = PyInt z /\ lo <= z <= hi.
Proof.
  unfold dict_get, int_between. intros H Hd.
  destruct (lookup k d) as [[| | z | | | |]|]; try discriminate H.
  - exists z. split; [reflexivity | lia].
  - exists dflt. split; [reflexivity | lia].
Qed.

Lemma not_infinite_inv (c : result float) :
  not_infinite c = true -> exists a, c = Ok a /\ is_infinity a = false.
Proof.
  destruct c as [a|e]; simpl; intros H; [|discriminate].
  exists a. split; [reflexivity|]. now apply negb_true_iff.
Qed.

Lemma returns_finite_not_infinite (c : result float) :
  returns_finite c = true -> not_infinite c = true.
Proof.
  destruct c as [a|e]; simpl; [|trivial]. unfold is_finite.
  rewrite negb_true_iff, orb_false_iff. intros [_ I]. now rewrite I.
Qed.

Lemma calendar_encodable (features : pyval) :
  calendar features = true -> encodable features = true.
Proof.
  intros H. destruct features as [| | | | | |d]; try discriminate H.
  simpl in H. apply andb_true_iff in H. destruct H as (H & Hm).
  apply andb_true_iff in H. destruct H as (Hh & Hd).
  apply (int_between_get 0 23 12) in Hh; [|lia].
  apply (int_between_get 0 7 1) in Hd; [|lia].
  apply (int_between_get 0 12 6) in Hm; [|lia].
  destruct Hh as (h & Eh & Rh). destruct Hd as (w & Ew & Rw).
  destruct Hm as (m & Em & Rm).
  unfold encodable. rewrite Eh, Ew, Em.
  destruct (angle_finite h Rh) as (A24 & _ & _).
  destruct (angle_finite w ltac:(lia)) as (_ & A7 & _).
  destruct (angle_finite m ltac:(lia)) as (_ & _ & A12).
  rewrite (returns_finite_not_infinite _ (hour_phase_finite h Rh)),
    (returns_finite_not_infinite _ A24), (returns_finite_not_infinite _ A7),
    (returns_finite_not_infinite _ A12).
  reflexivity.
Qed.

Lemma trig_returns_inv (T : trig_domain) (a : float) :
  (exists s, math_sin a = Ok s) \/ (exists c, math_cos a = Ok c) ->
  is_infinity a = false.
Proof.
  intros H. specialize (T a). destruct (is_infinity a); [|reflexivity].
  destruct T as ((e1 & E1) & (e2 & E2)).
  destruct H as [(s & Hs)|(c & Hc)]; congruence.
Qed.

Lemma encodable_steps (T : trig_domain) (d : list (string * pyval)) :
  encodable (PyDict d) = true ->
  exists hm hs hc ds dc ms mc, steps d hm hs hc ds dc ms mc.
Proof.
  unfold encodable. rewrite !andb_true_iff. intros (((P & A1) & A2) & A3).
  apply not_infinite_inv in P, A1, A2, A3.
  destruct P as (p & Hp & Ip). destruct A1 as (a1 & Ha1 & I1).
  destruct A2 as (a2 & Ha2 & I2). destruct A3 as (a3 & Ha3 & I3).
  pose proof (T p) as Tp. rewrite Ip in Tp. destruct Tp as ((s & Hs) & _).
  pose proof (T a1) as T1. rewrite I1 in T1.
  destruct T1 as ((hs & Hhs) & (hc & Hhc)).
  pose proof (T a2) as T2. rewrite I2 in T2.
  destruct T2 as ((ds & Hds) & (dc & Hdc)).
  pose proof (T a3) as T3. rewrite I3 in T3.
  destruct T3 as ((ms & Hms) & (mc & Hmc)).
  exists (1.0 + 0.3 * s)%float, hs, hc, ds, dc, ms, mc.
  unfold steps. split.
  - unfold hour_multiplier_of. rewrite Hp, bind_Ok, Hs. reflexivity.
  - split; [exists a1; auto|]. split; [exists a2; auto | exists a3; auto].
Qed.

Lemma steps_encodable (T : trig_domain) (d : list (string * pyval))
      (hm hs hc ds dc ms mc : float) :
  steps d hm hs hc ds dc ms mc -> encodable (PyDict d) = true.
Proof.
  intros (Hhm & (a1 & Ha1 & Hhs & _) & (a2 & Ha2 & Hds & _)
          & (a3 & Ha3 & Hms & _)).
  unfold hour_multiplier_of in Hhm. bind_inv Hhm. bind_inv Hhm.
  unfold encodable. rewrite Ha, Ha1, Ha2, Ha3. simpl.
  rewrite (trig_returns_inv T a) by eauto.
  rewrite (trig_returns_inv T a1) by eauto.
  rewrite (trig_returns_inv T a2) by eauto.
  rewrite (trig_returns_inv T a3) by eauto.
  reflexivity.
Qed.

(* ===================================================================== *)
(** ** The feature transformer *)
(* ===================================================================== *)

Lemma hour_multiplier_formula (v : pyval) (hm : float) :
  hour_multiplier_of v = Ok hm ->
  exists x s, less_6 v = Some x /\
              math_sin (2 * math_pi * x / 12)%float = Ok s /\
              hm = (1.0 + 0.3 * s)%float.
Proof.
  unfold hour_multiplier_of, hour_phase. intros H.
  bind_inv H. rename a into p, Ha into Hp.
  bind_inv H. rename a into s, Ha into Hs.
  apply Ok_inj in H. subst hm.
  bind_inv Hp. rename a into diff, Ha into Hd.
  bind_inv Hp. rename a into prod, Ha into Hm.
  apply Ok_inj in Hp. subst p.
  destruct v as [|b|z|x| | |]; try discriminate Hd;
    apply Ok_inj in Hd; subst diff.
  - unfold float_mul in Hm. bind_inv Hm. rename a into f, Ha into Hf.
    apply Ok_inj in Hm. subst prod.
    unfold int_to_float in Hf.
    destruct (is_infinity (float_of_Z (Z.b2z b - 6))); [discriminate Hf|].
    apply Ok_inj in Hf. subst f.
    exists (if b then -5 else -6)%float, s.
    split; [reflexivity|]. split; [|reflexivity].
    rewrite <- Hs. destruct b; reflexivity.
  - unfold float_mul in Hm. bind_inv Hm. rename a into f, Ha into Hf.
    apply Ok_inj in Hm. subst prod.
    unfold int_to_float in Hf.
    destruct (is_infinity (float_of_Z (z - 6))); [discriminate Hf|].
    apply Ok_inj in Hf. subst f.
    exists (float_of_Z (z - 6)), s. auto.
  - unfold float_mul in Hm. apply Ok_inj in Hm. subst prod.
    exists (x - 6)%float, s. split; [reflexivity|]. split; [|reflexivity].
    rewrite <- Hs. reflexivity.
Qed.

Lemma angle_formula (v : pyval) (period a : float) :
  angle v period = Ok a ->
  exists x, as_double v = Some x /\ a = (2 * math_pi * x / period)%float.
Proof.
  unfold angle. intros H.
  bind_inv H. rename a0 into prod, Ha into Hm.
  apply Ok_inj in H. subst a.
  destruct v as [|b|z|x| | |]; try discriminate Hm.
  - unfold float_mul in Hm. apply Ok_inj in Hm. subst prod.
    exists (if b then 1 else 0)%float. split; [reflexivity|].
    destruct b; reflexivity.
  - unfold float_mul in Hm. bind_inv Hm. rename a into f, Ha into Hf.
    apply Ok_inj in Hm. subst prod.
    unfold int_to_float in Hf.
    destruct (is_infinity (float_of_Z z)); [discriminate Hf|].
    apply Ok_inj in Hf. subst f.
    exists (float_of_Z z). auto.
  - unfold float_mul in Hm. apply Ok_inj in Hm. subst prod.
    exists x. auto.
Qed.

(** C3, on the mappings the transformer returns on (hour, day of week and
    month, the default where absent, are numbers whose angles are no
    infinity; the calendar values are among them, the other fields are
    free): it returns exactly 16 values, in the order lag_1h, lag_24h,
    lag_168h, temperature, humidity, hour sin/cos, day sin/cos, month
    sin/cos, avg_same_hour, avg_same_day, is_weekend, is_business_hour,
    renewable.  Each is given by its formula in double arithmetic:
    hour_multiplier = 1.0 + 0.3 * sin(2 * pi * (hour - 6) / 12), the lags
    and averages as products of 50.0 and the multipliers, each encoded pair
    as sin and cos of 2 * pi * x / period for the periods 24, 7 and 12; the
    five fields passed through are the mapping's own or their defaults.  And
    the result is a function of the eight fields read: a mapping that agrees
    on them gives the identical list. *)
Theorem transform_sixteen_in_order (features : pyval) :
  trig_domain -> encodable features = true ->
  exists (d : list (string * pyval)) (v : list pyval)
         (hour hour_less_6 day_of_week month : float)
         (s hour_multiplier lag_1h lag_24h lag_168h hour_sin hour_cos
          day_sin day_cos month_sin month_cos
          avg_same_hour avg_same_day : float),
    features = PyDict d /\
    transform_features_for_prediction features = Ok v /\
    List.length v = 16%nat /\
    v = [ PyFloat lag_1h; PyFloat lag_24h; PyFloat lag_168h;
          dict_get d "temperature" (PyFloat 22.0);
          dict_get d "humidity" (PyFloat 60.0);
          PyFloat hour_sin; PyFloat hour_cos; PyFloat day_sin; PyFloat day_cos;
          PyFloat month_sin; PyFloat month_cos;
          PyFloat avg_same_hour; PyFloat avg_same_day;
          dict_get d "is_weekend" (PyInt 0);
          dict_get d "is_business_hour" (PyInt 1);
          dict_get d "renewable" (PyFloat 0.0) ] /\
    (as_double (dict_get d "hour" (PyInt 12)) = Some hour /\
     less_6 (dict_get d "hour" (PyInt 12)) = Some hour_less_6 /\
     as_double (dict_get d "day_of_week" (PyInt 1)) = Some day_of_week /\
     as_double (dict_get d "month" (PyInt 6)) = Some month) /\
    (let weekend_multiplier :=
       (if truthy (dict_get d "is_weekend" (PyInt 0)) then 1.2 else 1.0)%float in
     let business_multiplier :=
       (if truthy (dict_get d "is_business_hour" (PyInt 1))
        then 1.1 else 0.8)%float in
     math_sin (2 * math_pi * hour_less_6 / 12)%float = Ok s /\
     hour_multiplier = (1.0 + 0.3 * s)%float /\
     lag_1h = (50.0 * hour_multiplier * weekend_multiplier
               * business_multiplier)%float /\
     lag_24h = (lag_1h * 0.95)%float /\
     lag_168h = (lag_1h * 0.9)%float /\
     avg_same_hour = (50.0 * hour_multiplier)%float /\
     avg_same_day = (50.0 * weekend_multiplier)%float) /\
    (math_sin (2 * math_pi * hour / 24)%float = Ok hour_sin /\
     math_cos (2 * math_pi * hour / 24)%float = Ok hour_cos /\
     math_sin (2 * math_pi * day_of_week / 7)%float = Ok day_sin /\
     math_cos (2 * math_pi * day_of_week / 7)%float = Ok day_cos /\
     math_sin (2 * math_pi * month / 12)%float = Ok month_sin /\
     math_cos (2 * math_pi * month / 12)%float = Ok month_cos) /\
    (forall d', (forall k, In k input_fields -> lookup k d' = lookup k d) ->
                transform_features_for_prediction (PyDict d') = Ok v).
Proof.
  intros T C. destruct features as [| | | | | |d]; try discriminate C.
  destruct (encodable_steps T d C) as (hm & hs & hc & ds & dc & ms & mc & S).
  pose proof (transform_eval _ _ _ _ _ _ _ _ S) as E.
  destruct S as (Hhm & (a1 & Ha1 & Hhs & Hhc) & (a2 & Ha2 & Hds & Hdc)
                 & (a3 & Ha3 & Hms & Hmc)).
  apply hour_multiplier_formula in Hhm.
  destruct Hhm as (h6 & s & Hh6 & Hs & Hhm).
  apply angle_formula in Ha1, Ha2, Ha3.
  destruct Ha1 as (h & Hh & ->). destruct Ha2 as (w & Hw & ->).
  destruct Ha3 as (m & Hm & ->).
  exists d, (feature_vector d hm hs hc ds dc ms mc), h, h6, w, m, s, hm.
  eexists. eexists. eexists. exists hs, hc, ds, dc, ms, mc.
  eexists. eexists.
  split; [reflexivity|]. split; [exact E|]. split; [reflexivity|].
  split; [unfold feature_vector; reflexivity|].
  split; [auto|].
  split; [cbv zeta; repeat split; try reflexivity; assumption|].
  split; [auto 10|].
  intros d' A. rewrite <- E. now apply transform_reads.
Qed.

(** C6, as the code has it: the transformer returns, and then a 16-element
    vector, exactly on the mappings whose hour, day of week and month (the
    default where absent) are numbers with finite or NaN angles; every
    mapping whose three fields are absent or calendar ints is one, whatever
    its other fields hold; and an absent field counts as its default:
    appending the documented defaults to the mapping changes nothing.  On
    any other input the transformer raises. *)
Theorem transform_returns_exactly_on (features : pyval) :
  trig_domain ->
  ((exists v, transform_features_for_prediction features = Ok v /\
              List.length v = 16%nat)
   <-> encodable features = true) /\
  ((exists e, transform_features_for_prediction features = Raise e)
   <-> encodable features = false) /\
  (calendar features = true -> encodable features = true) /\
  (forall d, features = PyDict d ->
             transform_features_for_prediction (PyDict (d ++ defaults))
             = transform_features_for_prediction features).
Proof.
  intros T.
  assert (I : (exists v, transform_features_for_prediction features = Ok v /\
                         List.length v = 16%nat)
              <-> encodable features = true).
  { split.
    - intros (v & H & _). apply transform_inv in H.
      destruct H as (d & hm & hs & hc & ds & dc & ms & mc & -> & S & _).
      exact (steps_encodable T _ _ _ _ _ _ _ _ S).
    - intros E. destruct features as [| | | | | |d]; try discriminate E.
      destruct (encodable_steps T d E) as (hm & hs & hc & ds & dc & ms & mc & S).
      exists (feature_vector d hm hs hc ds dc ms mc).
      split; [now apply transform_eval | reflexivity]. }
  split; [exact I|]. split; [|split].
  - split.
    + intros (e & H). apply not_true_is_false. intros E.
      apply I in E. destruct E as (v & E & _). congruence.
    + intros E.
      destruct (transform_features_for_prediction features) as [v|e] eqn:H;
        [|eauto].
      apply transform_inv in H.
      destruct H as (d & hm & hs & hc & ds & dc & ms & mc & -> & S & _).
      rewrite (steps_encodable T _ _ _ _ _ _ _ _ S) in E. discriminate E.
  - apply calendar_encodable.
  - intros d ->. apply transform_fills_defaults.
Qed.

(** What the defaults alone come to: the phase of the hour multiplier, and
    the angles of hour 12 and of month 6, are the double nearest to pi. *)
Lemma default_phases :
  hour_phase (PyInt 12) = Ok math_pi /\
  angle (PyInt 12) 24 = Ok math_pi /\
  angle (PyInt 6) 12 = Ok math_pi /\
  returns_finite (angle (PyInt 1) 7) = true.
Proof. vm_compute. repeat split; reflexivity. Qed.

(** C4, as the code computes it: with no field given the transformer takes
    the documented defaults; where [math.sin] at the double nearest to pi is
    the correctly rounded 1.2246467991473532e-16, the hour multiplier is
    exactly 1.0, and the first element is the binary64 product
    50.0 * 1.0 * 1.0 * 1.1, which is 55.00000000000001, the double that
    follows 55.0. *)
Theorem transform_of_empty :
  trig_domain -> math_sin math_pi = Ok 1.2246467991473532e-16%float ->
  hour_multiplier_of (PyInt 12) = Ok 1.0%float /\
  (exists hour_cos day_sin day_cos month_cos : float,
      transform_features_for_prediction (PyDict [])
      = Ok [ PyFloat 55.00000000000001; PyFloat 52.25000000000001;
             PyFloat 49.50000000000001; PyFloat 22.0; PyFloat 60.0;
             PyFloat 1.2246467991473532e-16; PyFloat hour_cos;
             PyFloat day_sin; PyFloat day_cos;
             PyFloat 1.2246467991473532e-16; PyFloat month_cos;
             PyFloat 50.0; PyFloat 50.0; PyInt 0; PyInt 1; PyFloat 0.0 ]) /\
  transform_features_for_prediction (PyDict [])
  = transform_features_for_prediction (PyDict defaults) /\
  (50.0 * 1.0 * 1.0 * 1.1 = 55.00000000000001)%float /\
  next_up 55.0 = 55.00000000000001%float /\
  55.00000000000001%float <> 55.0%float.
Proof.
  intros T Hpi.
  destruct default_phases as (P & A24 & A12 & A7).
  assert (Hhm : hour_multiplier_of (PyInt 12) = Ok 1.0%float).
  { unfold hour_multiplier_of. rewrite P, bind_Ok, Hpi. reflexivity. }
  pose proof (T math_pi) as Tpi. simpl in Tpi. destruct Tpi as (_ & (c & Hc)).
  apply returns_finite_not_infinite, not_infinite_inv in A7.
  destruct A7 as (a7 & Ha7 & I7).
  pose proof (T a7) as T7. rewrite I7 in T7.
  destruct T7 as ((ds & Hds) & (dc & Hdc)).
  split; [exact Hhm|]. split; [|split; [|split; [|split]]].
  - exists c, ds, dc, c.
    rewrite (transform_eval [] 1.0 1.2246467991473532e-16 c ds dc
               1.2246467991473532e-16 c); [reflexivity|].
    unfold steps. split; [exact Hhm|].
    split; [exists math_pi; auto|].
    split; [exists a7; auto | exists math_pi; auto].
  - symmetry. exact (transform_fills_defaults []).
  - reflexivity.
  - reflexivity.
  - intros E. apply (f_equal Prim2SF) in E. vm_compute in E. discriminate E.
Qed.

(* ===================================================================== *)
(** ** The prediction loop *)
(* ===================================================================== *)

Lemma predictions_from_inv (g : globals) (items : list pyval) :
  forall (idx : Z) (ps : list pyval),
    predictions_from idx g items = Ok ps ->
    List.length ps = List.length items /\
    forall (n : nat) (features : pyval),
      nth_error items n = Some features ->
      exists d feature_values X prediction,
        features = PyDict d /\
        transform_features_for_prediction features = Ok feature_values /\
        np_array [feature_values] = Ok X /\
        model_predict (model g) X = Ok prediction /\
        nth_error ps n
        = Some (PyDict [("index", PyInt (idx + Z.of_nat n));
                        ("predicted", PyFloat prediction);
                        ("timestamp", dict_get d "timestamp" PyNone)]).
Proof.
  induction items as [|features rest IH]; intros idx ps H.
  - apply Ok_inj in H. subst ps. split; [reflexivity|].
    intros [|n] f E; discriminate E.
  - simpl in H.
    bind_inv H. rename a into fv, Ha into Hfv.
    bind_inv H. rename a into X, Ha into HX.
    bind_inv H. rename a into p, Ha into Hp.
    bind_inv H. rename a into get, Ha into Hget.
    bind_inv H. rename a into more, Ha into Hmore.
    apply Ok_inj in H. subst ps.
    destruct (IH _ _ Hmore) as (L & N).
    split; [simpl; now rewrite L|].
    intros [|n] f E.
    + apply (f_equal (fun o => match o with Some x => x | None => f end)) in E.
      simpl in E. subst f.
      destruct features as [| | | | | |d]; try discriminate Hget.
      apply Ok_inj in Hget. subst get.
      exists d, fv, X, p. rewrite Z.add_0_r. auto.
    + simpl in E. destruct (N n f E) as (d & fv' & X' & p' & A & B & C & D & F).
      exists d, fv', X', p'. repeat (split; [assumption|]).
      simpl. rewrite F. do 5 f_equal. lia.
Qed.

(** Only an object with a [predict] method answers [model.predict(X)], and
    the answer is that method's. *)
Lemma model_predict_inv (m : pyobject) (X : ndarray) (prediction : float) :
  model_predict m X = Ok prediction ->
  exists cls f, m = ObjEstimator cls f /\ f X = Ok prediction.
Proof.
  destruct m as [|items|cls f|cls]; simpl; intros H; try discriminate H.
  exists cls, f. split; [reflexivity | exact H].
Qed.

(** C8: when [POST /api/predict] succeeds (status 200), the body holds
    [success: true] and one prediction per item of the batch, in the order
    of the batch; the i-th has index i, the item's own timestamp, or null
    where the item has none, and as predicted value the float that the
    loaded estimator's own [predict] answered on the one-row array made of
    the transformed i-th item. *)
Theorem predict_one_per_item (g : globals) (get_json : result pyval) :
  status (predict g get_json) = 200 ->
  exists (data features_list : pyval) (items predictions : list pyval),
    get_json = Ok data /\
    subscript data "features" = Ok features_list /\
    iterate features_list = Ok items /\
    body (predict g get_json)
    = PyDict [("success", PyBool true); ("predictions", PyList predictions)] /\
    List.length predictions = List.length items /\
    forall (i : nat) (features : pyval),
      nth_error items i = Some features ->
      exists d feature_values X prediction,
        features = PyDict d /\
        transform_features_for_prediction features = Ok feature_values /\
        np_array [feature_values] = Ok X /\
        (exists cls estimator_predict,
            model g = ObjEstimator cls estimator_predict /\
            estimator_predict X = Ok prediction) /\
        nth_error predictions i
        = Some (PyDict [("index", PyInt (Z.of_nat i));
                        ("predicted", PyFloat prediction);
                        ("timestamp", match lookup "timestamp" d with
                                      | Some t => t
                                      | None => PyNone
                                      end)]).
Proof.
  unfold predict. destruct (is_none (model g)); [discriminate|].
  destruct get_json as [data|e]; [|discriminate]. rewrite bind_Ok.
  destruct (invalid_request data) as [[|]|e]; try discriminate. rewrite bind_Ok.
  destruct (subscript data "features") as [fl|e] eqn:F; [|discriminate].
  rewrite bind_Ok.
  destruct (iterate fl) as [items|e] eqn:I; [|discriminate]. rewrite bind_Ok.
  destruct (predictions_from 0 g items) as [ps|e] eqn:P; [|discriminate].
  rewrite bind_Ok. intros _.
  exists data, fl, items, ps.
  destruct (predictions_from_inv _ _ _ _ P) as (L & N).
  split; [reflexivity|]. split; [exact F|]. split; [exact I|].
  split; [reflexivity|]. split; [exact L|].
  intros i features Hi.
  destruct (N i features Hi) as (d & fv & X & p & Ed & Ht & HX & Hp & E).
  exists d, fv, X, p.
  split; [exact Ed|]. split; [exact Ht|]. split; [exact HX|].
  split; [exact (model_predict_inv _ _ _ Hp) | exact E].
Qed.

(* ===================================================================== *)
(** ** The timestamp *)
(* ===================================================================== *)

Lemma transform_ignores_timestamp (f1 f2 : pyval) :
  differ_only_in_timestamp f1 f2 ->
  transform_features_for_prediction f1 = transform_features_for_prediction f2.
Proof.
  intros (d1 & d2 & -> & -> & H). apply transform_reads.
  intros k Hk. apply H. intros ->. simpl in Hk.
  repeat (destruct Hk as [Hk|Hk]; [discriminate Hk|]). contradiction.
Qed.

Lemma predictions_from_timestamp (g : globals) (items1 items2 : list pyval) :
  Forall2 differ_only_in_timestamp items1 items2 ->
  forall idx,
    match predictions_from idx g items1, predictions_from idx g items2 with
    | Ok ps1, Ok ps2 =>
        map (item "predicted") ps1 = map (item "predicted") ps2
    | Raise e1, Raise e2 => e1 = e2
    | _, _ => False
    end.
Proof.
  induction 1 as [|f1 f2 l1 l2 D _ IH]; intros idx; [reflexivity|].
  simpl. rewrite (transform_ignores_timestamp _ _ D).
  destruct D as (d1 & d2 & -> & -> & _).
  destruct (transform_features_for_prediction (PyDict d2)) as [fv|e];
    [|reflexivity].
  rewrite !bind_Ok. destruct (np_array [fv]) as [X|e]; [|reflexivity].
  rewrite !bind_Ok. destruct (model_predict (model g) X) as [p|e];
    [|reflexivity].
  rewrite !bind_Ok. simpl attr_get. rewrite !bind_Ok.
  specialize (IH (idx + 1)).
  destruct (predictions_from (idx + 1) g l1) as [m1|e1],
           (predictions_from (idx + 1) g l2) as [m2|e2];
    try contradiction; simpl.
  - now rewrite IH.
  - exact IH.
Qed.

(** C10: two [POST /api/predict] requests whose items differ at most in
    their timestamps are transformed to the same vectors, get the same
    status, and the same predicted values in the same order; where the
    request fails, the same error body. *)
Theorem predicted_ignores_timestamp (g : globals)
        (items1 items2 : list pyval) :
  Forall2 differ_only_in_timestamp items1 items2 ->
  let r1 := predict g (Ok (PyDict [("features", PyList items1)])) in
  let r2 := predict g (Ok (PyDict [("features", PyList items2)])) in
  Forall2 (fun f1 f2 => transform_features_for_prediction f1
                        = transform_features_for_prediction f2)
          items1 items2 /\
  status r1 = status r2 /\
  predicted_values (body r1) = predicted_values (body r2) /\
  (status r1 <> 200 -> body r1 = body r2).
Proof.
  intros D. cbv zeta. split.
  - induction D; constructor; auto using transform_ignores_timestamp.
  - unfold predict. destruct (is_none (model g)).
    + repeat split; reflexivity.
    + rewrite !bind_Ok.
      change (invalid_request (PyDict [("features", PyList items1)]))
        with (@Ok bool false).
      change (invalid_request (PyDict [("features", PyList items2)]))
        with (@Ok bool false).
      rewrite !bind_Ok.
      change (subscript (PyDict [("features", PyList items1)]) "features")
        with (Ok (PyList items1)).
      change (subscript (PyDict [("features", PyList items2)]) "features")
        with (Ok (PyList items2)).
      rewrite !bind_Ok. simpl iterate. rewrite !bind_Ok.
      pose proof (predictions_from_timestamp g _ _ D 0) as P.
      destruct (predictions_from 0 g items1) as [ps1|e1],
               (predictions_from 0 g items2) as [ps2|e2];
        try contradiction; simpl.
      * repeat split; [exact P | intros N; now elim N].
      * subst e2. repeat split; reflexivity.
Qed.

(* ===================================================================== *)
(** ** Cyclical encodings *)
(* ===================================================================== *)

Lemma near_unit_circle (eps x s c : R) :
  (Rabs (s - sin x) <= eps ->
   Rabs (c - cos x) <= eps ->
   Rabs (s * s + c * c - 1) <= 4 * eps + 2 * (eps * eps))%R.
Proof.
  intros Hs Hc.
  pose proof (sin2_cos2 x) as U. unfold Rsqr in U.
  pose proof (SIN_bound x) as [S1 S2]. pose proof (COS_bound x) as [C1 C2].
  pose proof (Rle_abs (s - sin x)) as Hs1.
  pose proof (Rle_abs (- (s - sin x))) as Hs2. rewrite Rabs_Ropp in Hs2.
  pose proof (Rle_abs (c - cos x)) as Hc1.
  pose proof (Rle_abs (- (c - cos x))) as Hc2. rewrite Rabs_Ropp in Hc2.
  set (S := sin x) in *. set (C := cos x) in *.
  apply Rabs_le. split; nra.
Qed.

Lemma pair_near_unit_circle (eps : R) (a s c : float) :
  trig_accurate eps a -> math_sin a = Ok s -> math_cos a = Ok c ->
  (off_unit_circle s c <= 4 * eps + 2 * (eps * eps))%R.
Proof.
  intros (_ & A) Hs Hc. destruct (A s c Hs Hc) as (_ & _ & Es & Ec).
  exact (near_unit_circle eps (F2R a) (F2R s) (F2R c) Es Ec).
Qed.

(** C5: in every vector the transformer returns, the hour, day and month
    pairs are the [math.sin] and [math.cos] of one and the same angle, so
    the squares of each pair add up to 1 as nearly as the two functions are
    accurate there: within 4 eps + 2 eps^2 where both are within eps of the
    sine and cosine of the (finite) angle. *)
Theorem cyclical_pairs_near_unit_circle (features : pyval) (v : list pyval)
        (eps : R) :
  transform_features_for_prediction features = Ok v ->
  (forall a, In (Ok a) (encoded_angles features) -> trig_accurate eps a) ->
  exists hour_sin hour_cos day_sin day_cos month_sin month_cos : float,
    nth_error v 5 = Some (PyFloat hour_sin) /\
    nth_error v 6 = Some (PyFloat hour_cos) /\
    nth_error v 7 = Some (PyFloat day_sin) /\
    nth_error v 8 = Some (PyFloat day_cos) /\
    nth_error v 9 = Some (PyFloat month_sin) /\
    nth_error v 10 = Some (PyFloat month_cos) /\
    (off_unit_circle hour_sin hour_cos <= 4 * eps + 2 * (eps * eps))%R /\
    (off_unit_circle day_sin day_cos <= 4 * eps + 2 * (eps * eps))%R /\
    (off_unit_circle month_sin month_cos <= 4 * eps + 2 * (eps * eps))%R.
Proof.
  intros H A. apply transform_inv in H.
  destruct H as (d & hm & hs & hc & ds & dc & ms & mc & -> & S & ->).
  destruct S as (_ & (a1 & Ha1 & Hhs & Hhc) & (a2 & Ha2 & Hds & Hdc)
                 & (a3 & Ha3 & Hms & Hmc)).
  exists hs, hc, ds, dc, ms, mc.
  repeat (split; [reflexivity|]).
  simpl encoded_angles in A. rewrite Ha1, Ha2, Ha3 in A.
  split; [|split].
  - apply (pair_near_unit_circle eps a1); auto. apply A. simpl. auto.
  - apply (pair_near_unit_circle eps a2); auto. apply A. simpl. auto.
  - apply (pair_near_unit_circle eps a3); auto. apply A. simpl. auto.
Qed.

End Properties.

(* ===================================================================== *)
(** ** The service on concrete requests *)
(* ===================================================================== *)

Lemma table_trig_domain : @trig_domain table_runtime.
Proof.
  intros x. simpl math_sin. simpl math_cos. unfold table_sin, table_cos.
  destruct (is_infinity x); [split; eauto|].
  destruct (is_nan x), (x =? math_pi)%float, (x =? 0)%float; eauto.
Qed.

Lemma F2R_zero : F2R 0 = 0%R.
Proof. reflexivity. Qed.

Lemma F2R_one : F2R 1 = 1%R.
Proof.
  unfold F2R. vm_compute Prim2SF. unfold SF2R. simpl. lra.
Qed.

Lemma table_accurate_at_zero : @trig_accurate table_runtime 0 0%float.
Proof.
  split; [reflexivity|]. intros s c Hs Hc.
  apply Ok_inj in Hs. apply Ok_inj in Hc. subst s c.
  split; [reflexivity|]. split; [reflexivity|].
  rewrite F2R_zero, F2R_one, sin_0, cos_0, !Rminus_diag, Rabs_R0.
  split; apply Rle_refl.
Qed.

(** The example request of the specification, with a model loaded: one
    prediction, index 0, status 200. *)
Example predict_noon_weekday :
  predict loaded (Ok (PyDict [("features", PyList [noon_weekday])]))
  = Response 200 (success [PyDict [("index", PyInt 0);
                                   ("predicted", PyFloat 42.5);
                                   ("timestamp", PyNone)]]).
Proof. reflexivity. Qed.

(** A body without [features], with a model loaded: 400 from both. *)
Example invalid_request_400 :
  predict loaded (Ok (PyDict [])) = Response 400 (failure "Invalid request") /\
  handler loaded "2024-03-01T09:00:00" (post_event "/api/predict" (PyStr "{}"))
  = LambdaResponse 400 [allow_origin] (JsonDumps (failure "Invalid request")).
Proof. split; reflexivity. Qed.

(** With [model] unset and a batch of one item, [handler] reaches
    [model.predict] and answers 500 with the attribute error's text. *)
Example handler_unloaded_batch :
  handler (@initial table_runtime) "2024-03-01T09:00:00"
          (post_event "/api/predict"
                      (PyDict [("features", PyList [noon_weekday])]))
  = LambdaResponse 500 [allow_origin]
      (JsonDumps (failure "'NoneType' object has no attribute 'predict'")).
Proof. reflexivity. Qed.

Lemma transform_sixteen_in_order_noon :
  @trig_domain table_runtime /\ encodable noon_weekday = true /\
  exists v, @transform_features_for_prediction table_runtime noon_weekday = Ok v
            /\ List.length v = 16%nat.
Proof.
  split; [exact table_trig_domain|]. split; [reflexivity|].
  destruct (@transform_sixteen_in_order table_runtime noon_weekday
              table_trig_domain eq_refl)
    as (d & v & _ & _ & _ & _ & _ & _ & _ & _ & _ & _ & _ & _ & _ & _ & _ & _
        & _ & _ & E & L & _).
  exists v. split; [exact E | exact L].
Defined.

Lemma transform_returns_exactly_on_empty :
  @trig_domain table_runtime /\ encodable (PyDict []) = true /\
  exists v, @transform_features_for_prediction table_runtime (PyDict []) = Ok v
            /\ List.length v = 16%nat.
Proof.
  split; [exact table_trig_domain|]. split; [reflexivity|].
  exact (proj2 (proj1 (@transform_returns_exactly_on table_runtime (PyDict [])
                         table_trig_domain)) eq_refl).
Defined.

Lemma transform_of_empty_table :
  @trig_domain table_runtime /\
  @math_sin table_runtime math_pi = Ok 1.2246467991473532e-16%float /\
  @hour_multiplier_of table_runtime (PyInt 12) = Ok 1.0%float /\
  nth_error (match @transform_features_for_prediction table_runtime (PyDict [])
             with Ok v => v | Raise _ => [] end) 0
  = Some (PyFloat 55.00000000000001).
Proof.
  split; [exact table_trig_domain|]. split; [reflexivity|].
  destruct (@transform_of_empty table_runtime table_trig_domain eq_refl)
    as (H & (hc & ds & dc & mc & E) & _).
  split; [exact H|]. rewrite E. reflexivity.
Defined.

(** C4 as stated does not hold, whatever [math.sin] returns: where the hour
    multiplier of the empty mapping is 1.0, the first element is not 55.0. *)
Lemma default_lag_is_not_55 :
  ~ (exists (RT : Runtime) (rest : list pyval),
        hour_multiplier_of (PyInt 12) = Ok 1.0%float /\
        transform_features_for_prediction (PyDict [])
        = Ok (PyFloat 55.0 :: rest)).
Proof.
  intros (RT & rest & Hhm & H). apply transform_inv in H.
  destruct H as (d & hm & hs & hc & ds & dc & ms & mc & D & S & V).
  injection D as <-. destruct S as (Hhm' & _).
  change (dict_get [] "hour" (PyInt 12)) with (PyInt 12) in Hhm'.
  rewrite Hhm in Hhm'. apply Ok_inj in Hhm'. subst hm.
  unfold feature_vector in V.
  apply (f_equal (fun l => match l with
                           | PyFloat x :: _ => Prim2SF x
                           | _ => S754_nan
                           end)) in V.
  vm_compute in V. discriminate V.
Qed.

(** C6 as stated does not hold: no runtime makes the transformer return on
    a mapping whose hour is null, nor on one whose hour is an int past the
    largest double. *)
Lemma transform_raises_on_null_hour :
  ~ (exists (RT : Runtime) (v : list pyval),
        transform_features_for_prediction (PyDict [("hour", PyNone)]) = Ok v)
  /\
  ~ (exists (RT : Runtime) (v : list pyval),
        transform_features_for_prediction (PyDict [("hour", PyInt (10 ^ 400))])
        = Ok v).
Proof.
  split; intros (RT & v & H); apply transform_inv in H;
    destruct H as (d & hm & hs & hc & ds & dc & ms & mc & D & S & _);
    injection D as <-; destruct S as (Hhm & _);
    unfold hour_multiplier_of in Hhm; apply bind_Ok_inv in Hhm;
    destruct Hhm as (a & Ha & _); vm_compute in Ha; discriminate Ha.
Qed.

(** C3 as stated does not hold of every mapping: no runtime makes the
    transformer return 16 values, or any, on a mapping whose hour is the
    text 12, nor on one whose month is a name. *)
Lemma transform_raises_on_text_hour :
  ~ (forall (RT : Runtime) (d : list (string * pyval)),
        exists v, transform_features_for_prediction (PyDict d) = Ok v /\
                  List.length v = 16%nat)
  /\
  ~ (exists (RT : Runtime) (v : list pyval),
        transform_features_for_prediction (PyDict [("hour", PyStr "12")])
        = Ok v)
  /\
  ~ (exists (RT : Runtime) (v : list pyval),
        transform_features_for_prediction (PyDict [("month", PyStr "June")])
        = Ok v).
Proof.
  assert (N : ~ (exists (RT : Runtime) (v : list pyval),
                    transform_features_for_prediction
                      (PyDict [("hour", PyStr "12")]) = Ok v)).
  { intros (RT & v & H). apply transform_inv in H.
    destruct H as (d & hm & hs & hc & ds & dc & ms & mc & D & S & _).
    injection D as <-. destruct S as (Hhm & _).
    unfold hour_multiplier_of in Hhm. apply bind_Ok_inv in Hhm.
    destruct Hhm as (a & Ha & _). vm_compute in Ha. discriminate Ha. }
  split; [|split; [exact N|]].
  - intros H. apply N. exists table_runtime.
    destruct (H table_runtime [("hour", PyStr "12")]) as (v & E & _).
    exists v. exact E.
  - intros (RT & v & H). apply transform_inv in H.
    destruct H as (d & hm & hs & hc & ds & dc & ms & mc & D & S & _).
    injection D as <-. destruct S as (_ & _ & _ & (a & Ha & _)).
    vm_compute in Ha. discriminate Ha.
Qed.

Lemma predict_one_per_item_loaded :
  status (predict loaded (Ok morning_batch)) = 200 /\
  exists predictions,
    body (predict loaded (Ok morning_batch)) = success predictions /\
    List.length predictions = 2%nat /\
    nth_error predictions 1
    = Some (PyDict [("index", PyInt 1); ("predicted", PyFloat 42.5);
                    ("timestamp", PyStr "2024-03-01T09:00:00")]).
Proof.
  split; [reflexivity|].
  destruct (@predict_one_per_item table_runtime loaded (Ok morning_batch)
              eq_refl)
    as (data & fl & items & ps & Hd & Hf & Hi & Hb & Hl & Hn).
  apply Ok_inj in Hd. subst data.
  apply Ok_inj in Hf. subst fl.
  apply Ok_inj in Hi. subst items.
  exists ps. split; [exact Hb|]. split; [exact Hl|].
  destruct (Hn 1%nat _ eq_refl)
    as (d & fv & X & p & Ed & _ & HX & (cls & f & Hm & Hp) & E).
  rewrite E.
  assert (Ed' : d = [("timestamp", PyStr "2024-03-01T09:00:00")])
    by exact (f_equal (fun v => match v with PyDict x => x | _ => d end)
                      (eq_sym Ed)).
  assert (Hf : (fun _ => Ok 42.5%float) = f)
    by exact (f_equal (fun o => match o with
                                | ObjEstimator _ h => h
                                | _ => f
                                end) Hm).
  subst d f. apply Ok_inj in Hp. subst p. reflexivity.
Defined.

Lemma predicted_ignores_timestamp_loaded :
  let stamped := PyDict [("hour", PyInt 9); ("timestamp", PyStr "09:00")] in
  let bare := PyDict [("hour", PyInt 9)] in
  Forall2 differ_only_in_timestamp [stamped] [bare] /\
  predicted_values
    (body (predict loaded (Ok (PyDict [("features", PyList [stamped])]))))
  = predicted_values
      (body (predict loaded (Ok (PyDict [("features", PyList [bare])])))).
Proof.
  cbv zeta.
  assert (D : Forall2 differ_only_in_timestamp
                [PyDict [("hour", PyInt 9); ("timestamp", PyStr "09:00")]]
                [PyDict [("hour", PyInt 9)]]).
  { constructor; [|constructor].
    eexists. eexists. split; [reflexivity|]. split; [reflexivity|].
    intros k Hk. cbn [lookup]. destruct ("hour" =? k)%string; [reflexivity|].
    destruct (String.eqb_spec "timestamp" k) as [E|_]; [|reflexivity].
    now elim Hk. }
  split; [exact D|].
  exact (proj1 (proj2 (proj2 (@predicted_ignores_timestamp table_runtime
                                loaded _ _ D)))).
Defined.

Lemma cyclical_pairs_near_unit_circle_midnight :
  let midnight :=
    PyDict [("hour", PyInt 0); ("day_of_week", PyInt 0); ("month", PyInt 0)] in
  exists v,
    @transform_features_for_prediction table_runtime midnight = Ok v /\
    (forall a, In (Ok a) (encoded_angles midnight) ->
               @trig_accurate table_runtime 0 a) /\
    nth_error v 5 = Some (PyFloat 0) /\ nth_error v 6 = Some (PyFloat 1) /\
    (off_unit_circle 0 1 <= 4 * 0 + 2 * (0 * 0))%R.
Proof.
  cbv zeta.
  assert (A : forall a,
             In (Ok a) (encoded_angles
                          (PyDict [("hour", PyInt 0); ("day_of_week", PyInt 0);
                                   ("month", PyInt 0)])) ->
             @trig_accurate table_runtime 0 a).
  { intros a [E|[E|[E|[]]]]; vm_compute in E; apply Ok_inj in E; subst a;
      exact table_accurate_at_zero. }
  eexists. split; [vm_compute; reflexivity|]. split; [exact A|].
  split; [reflexivity|]. split; [reflexivity|].
  destruct (@cyclical_pairs_near_unit_circle table_runtime
              (PyDict [("hour", PyInt 0); ("day_of_week", PyInt 0);
                       ("month", PyInt 0)]) _ 0%R
              ltac:(vm_compute; reflexivity) A)
    as (hs & hc & _ & _ & _ & _ & E5 & E6 & _ & _ & _ & _ & B & _).
  simpl in E5, E6.
  assert (hs = 0%float)
    by exact (f_equal (fun o => match o with
                                | Some (PyFloat x) => x
                                | _ => hs
                                end) (eq_sym E5)).
  assert (hc = 1%float)
    by exact (f_equal (fun o => match o with
                                | Some (PyFloat x) => x
                                | _ => hc
                                end) (eq_sym E6)).
  subst hs hc. exact B.
Defined.

(* ===================================================================== *)
(** ** More of the two entry points *)
(* ===================================================================== *)

Lemma bind_Raise {A B : Type} (e : exn) (k : A -> result B) :
  bind (Raise e) k = Raise e.
Proof. reflexivity. Qed.

Lemma eq_str_true (v : pyval) (s : string) :
  eq_str v s = true -> v = PyStr s.
Proof.
  destruct v; simpl; try discriminate. intros H.
  apply String.eqb_eq in H. now subst.
Qed.

Ltac case_step :=
  match goal with
  | |- context [bind ?c _] =>
      let E := fresh "E" in
      destruct c eqn:E; rewrite ?bind_Ok, ?bind_Raise
  | |- context [if ?b then _ else _] =>
      let E := fresh "E" in destruct b eqn:E
  end.

Section Coverage.
Context {RT : Runtime}.

(** Every answer of the Flask view [predict] has one of four shapes: 200
    with [success: true] and a list of predictions, 400 with the text
    "Invalid request", 500 with the text of an exception, 503 with the text
    "Model not loaded"; and it is 503 exactly when the global [model] is
    [None]. *)
Theorem predict_answers_in_four_shapes (g : globals)
        (get_json : result pyval) :
  let r := predict g get_json in
  ((status r = 200 /\ exists ps, body r = success ps) \/
   (status r = 400 /\ body r = failure "Invalid request") \/
   (status r = 500 /\ exists e, body r = failure (str_exn e)) \/
   (status r = 503 /\ body r = failure "Model not loaded")) /\
  (status r = 503 <-> model g = ObjNone).
Proof.
  cbv zeta. unfold predict. destruct (is_none (model g)) eqn:N.
  - split; [do 3 right; split; reflexivity|].
    split; [intros _; now apply is_none_spec | reflexivity].
  - assert (M : model g <> ObjNone)
      by (intros M; apply is_none_spec in M; congruence).
    repeat case_step; simpl;
      (split; [eauto 10 | split; [discriminate | intros; contradiction]]).
Qed.

(** Every answer of [handler], to any event and in any state, carries the
    header [Access-Control-Allow-Origin: *] and is one of: the preflight
    answer, the health report, 200 with predictions, 400 "Invalid request",
    404 "Not found" (a body without [success]), 500 with the text of an
    exception.  It is never 503. *)
Theorem handler_answers_in_shapes (g : globals) (now : string)
        (event : pyval) :
  let r := handler g now event in
  In allow_origin (headers r) /\
  (r = preflight \/
   r = LambdaResponse 200 [content_json; allow_origin]
         (JsonDumps (health_report g now)) \/
   (exists ps, r = LambdaResponse 200 [content_json; allow_origin]
                     (JsonDumps (success ps))) \/
   r = LambdaResponse 400 [allow_origin]
         (JsonDumps (failure "Invalid request")) \/
   r = not_found \/
   (exists e, r = LambdaResponse 500 [allow_origin]
                    (JsonDumps (failure (str_exn e))))) /\
  statusCode r <> 503.
Proof.
  cbv zeta.
  assert (S : handler g now event = preflight \/
              handler g now event
              = LambdaResponse 200 [content_json; allow_origin]
                  (JsonDumps (health_report g now)) \/
              (exists ps, handler g now event
                          = LambdaResponse 200 [content_json; allow_origin]
                              (JsonDumps (success ps))) \/
              handler g now event
              = LambdaResponse 400 [allow_origin]
                  (JsonDumps (failure "Invalid request")) \/
              handler g now event = not_found \/
              (exists e, handler g now event
                         = LambdaResponse 500 [allow_origin]
                             (JsonDumps (failure (str_exn e))))).
  { unfold handler. repeat case_step; eauto 10. }
  split; [|split; [exact S|]].
  - destruct S as [-> | [-> | [(ps & ->) | [-> | [-> | (e & ->)]]]]];
      simpl; tauto.
  - destruct S as [-> | [-> | [(ps & ->) | [-> | [-> | (e & ->)]]]]];
      discriminate.
Qed.

(** A CORS preflight is answered 200 with an empty body whatever the path,
    the body and the state of the model, and nothing else is: an event gets
    the preflight answer exactly when its [httpMethod] is OPTIONS. *)
Theorem handler_preflight (g : globals) (now : string)
        (d : list (string * pyval)) :
  handler g now (PyDict d) = preflight
  <-> lookup "httpMethod" d = Some (PyStr "OPTIONS").
Proof.
  split.
  - destruct (eq_str (dict_get d "httpMethod" PyNone) "OPTIONS") eqn:O.
    + intros _. apply eq_str_true in O. unfold dict_get in O.
      destruct (lookup "httpMethod" d); [now subst | discriminate O].
    + unfold handler. simpl attr_get. rewrite bind_Ok, O.
      intros H. exfalso. revert H. repeat case_step; discriminate.
  - intros H. unfold handler. simpl attr_get. rewrite bind_Ok.
    unfold dict_get. rewrite H. reflexivity.
Qed.

(** [handler] reads three keys of the event and no other: two events that
    agree under [httpMethod], [path] and [body] get the same answer. *)
Theorem handler_reads_three_keys (g : globals) (now : string)
        (d1 d2 : list (string * pyval)) :
  (forall k, In k event_keys -> lookup k d1 = lookup k d2) ->
  handler g now (PyDict d1) = handler g now (PyDict d2).
Proof.
  intros H. unfold handler, path_is_health, body_data.
  simpl attr_get. rewrite !bind_Ok.
  unfold dict_get. cbn [contains subscript]. unfold has_key.
  rewrite !(H "httpMethod"), !(H "path"), !(H "body") by (simpl; tauto).
  reflexivity.
Qed.

(** On a POST, [handler] does not look at the path: two POST events with
    the same body (or both without one) get the same answer, so a POST to
    any path is taken for a prediction request. *)
Theorem handler_post_reads_only_body (g : globals) (now : string)
        (d1 d2 : list (string * pyval)) :
  lookup "httpMethod" d1 = Some (PyStr "POST") ->
  lookup "httpMethod" d2 = Some (PyStr "POST") ->
  lookup "body" d1 = lookup "body" d2 ->
  handler g now (PyDict d1) = handler g now (PyDict d2).
Proof.
  intros H1 H2 B. unfold handler, body_data.
  simpl attr_get. rewrite !bind_Ok.
  unfold dict_get. cbn [contains subscript]. unfold has_key.
  rewrite H1, H2, B.
  change (eq_str (PyStr "POST") "OPTIONS") with false.
  change (eq_str (PyStr "POST") "GET") with false.
  cbv iota. rewrite !bind_Ok. reflexivity.
Qed.

(** *** Paths *)

Lemma length_app_string (p s : string) :
  String.length (p ++ s) = (String.length p + String.length s)%nat.
Proof.
  induction p as [|c p IH]; simpl; [reflexivity | now rewrite IH].
Qed.

Lemma substring_all (s : string) : substring 0 (String.length s) s = s.
Proof.
  induction s as [|c s IH]; simpl; [reflexivity | now rewrite IH].
Qed.

Lemma substring_skip (p s : string) (m : nat) :
  substring (String.length p) m (p ++ s) = substring 0 m s.
Proof.
  induction p as [|c p IH]; simpl; [reflexivity | exact IH].
Qed.

Lemma substring_split (s : string) (n : nat) :
  (n <= String.length s)%nat ->
  s = (substring 0 n s ++ substring n (String.length s - n) s)%string.
Proof.
  revert n. induction s as [|c s IH]; intros n Hn.
  - destruct n; [reflexivity | simpl in Hn; lia].
  - destruct n as [|n].
    + simpl. now rewrite substring_all.
    + simpl in Hn. simpl. f_equal. apply IH. lia.
Qed.

(** [s.endswith(suffix)] holds exactly of the strings that are something
    followed by [suffix]. *)
Lemma endswith_spec (s suffix : string) :
  endswith s suffix = true <-> exists prefix, s = (prefix ++ suffix)%string.
Proof.
  unfold endswith. split.
  - intros H. apply andb_true_iff in H. destruct H as (L & E).
    apply Nat.leb_le in L. apply String.eqb_eq in E.
    exists (substring 0 (String.length s - String.length suffix) s).
    pose proof (substring_split s (String.length s - String.length suffix)
                  ltac:(lia)) as S.
    replace (String.length s - (String.length s - String.length suffix))%nat
      with (String.length suffix) in S by lia.
    rewrite E in S. exact S.
  - intros (p & ->). rewrite length_app_string.
    apply andb_true_iff. split; [apply Nat.leb_le; lia|].
    replace (String.length p + String.length suffix - String.length suffix)%nat
      with (String.length p) by lia.
    rewrite substring_skip, substring_all. apply String.eqb_refl.
Qed.

(** A GET gets the health report on every path that ends in [/health]
    (so also on [/health] alone and on [/x/health]), and 404 on every other
    path. *)
Theorem handler_health_on_any_suffix (g : globals) (now path : string) :
  (handler g now (get_event path)
   = LambdaResponse 200 [content_json; allow_origin]
       (JsonDumps (PyDict [("status", PyStr "healthy");
                           ("model_loaded", PyBool (negb (is_none (model g))));
                           ("timestamp", PyStr now)]))
   <-> exists prefix, path = (prefix ++ "/health")%string) /\
  (handler g now (get_event path) = not_found
   <-> ~ exists prefix, path = (prefix ++ "/health")%string).
Proof.
  rewrite <- endswith_spec.
  assert (E : handler g now (get_event path)
              = if endswith path "/health"
                then LambdaResponse 200 [content_json; allow_origin]
                       (JsonDumps (health_report g now))
                else not_found).
  { unfold handler, get_event. simpl attr_get. rewrite bind_Ok.
    change (dict_get [("httpMethod", PyStr "GET"); ("path", PyStr path)]
                     "httpMethod" PyNone) with (PyStr "GET").
    change (eq_str (PyStr "GET") "OPTIONS") with false.
    change (eq_str (PyStr "GET") "GET") with true.
    change (eq_str (PyStr "GET") "POST") with false.
    cbv iota. unfold path_is_health.
    change (dict_get [("httpMethod", PyStr "GET"); ("path", PyStr path)]
                     "path" (PyStr "")) with (PyStr path).
    rewrite bind_Ok. destruct (endswith path "/health"); reflexivity. }
  rewrite E. destruct (endswith path "/health"); split; split;
    try reflexivity; try discriminate; try congruence.
Qed.

(** *** What is not routed *)

(** [handler] answers 404 exactly to the events none of its three tests
    takes: a method that is not OPTIONS, GET or POST, a POST without a
    [body] key (a missing body is 404, not 400), a GET whose path is absent
    or does not end in [/health]. *)
Theorem handler_not_found (g : globals) (now : string)
        (d : list (string * pyval)) :
  handler g now (PyDict d) = not_found <-> unrouted d.
Proof.
  unfold unrouted. cbv zeta.
  unfold handler, path_is_health. simpl attr_get. rewrite bind_Ok.
  cbn [contains]. unfold has_key.
  destruct (eq_str (dict_get d "httpMethod" PyNone) "OPTIONS") eqn:O.
  { apply eq_str_true in O. rewrite O. simpl. split; [discriminate|].
    intros [(H & _) | [(H & _) | (H & _)]]; discriminate H. }
  destruct (eq_str (dict_get d "httpMethod" PyNone) "GET") eqn:G.
  { pose proof (eq_str_true _ _ G) as M. rewrite M.
    change (eq_str (PyStr "GET") "POST") with false.
    unfold dict_get at 1.
    destruct (lookup "path" d) as [v|] eqn:P.
    - destruct v as [| | | | p | |]; rewrite ?bind_Ok;
        try (simpl; split; [discriminate|];
             intros [(_ & H & _) | [(H & _) | (_ & [H | (p & H & _)])]];
             discriminate H).
      destruct (endswith p "/health") eqn:E; rewrite ?bind_Ok; cbv iota.
      + split; [discriminate|].
        intros [(_ & H & _) | [(H & _) | (_ & [H | (p' & H & H')])]];
          try discriminate H.
        injection H as <-. congruence.
      + split; [|reflexivity].
        intros _. right. right. split; [reflexivity|]. right. eauto.
    - change (endswith "" "/health") with false. rewrite ?bind_Ok. cbv iota.
      split; [|reflexivity]. intros _. right. right. split; [reflexivity|].
      now left. }
  rewrite ?bind_Ok. cbv iota.
  destruct (eq_str (dict_get d "httpMethod" PyNone) "POST") eqn:Q.
  - destruct (lookup "body" d) as [raw|] eqn:B; rewrite ?bind_Ok; cbv iota.
    + split.
      * unfold body_data. cbn [subscript]. rewrite B, ?bind_Ok.
        intros H. exfalso. revert H.
        repeat case_step; discriminate.
      * intros [(_ & _ & H) | [(_ & H) | (H & _)]]; discriminate H.
    + split; [|reflexivity]. intros _. right. left. auto.
  - rewrite ?bind_Ok. cbv iota. split; [|reflexivity]. intros _. left. auto.
Qed.

(** *** Bodies *)

Lemma invalid_without_features (d : list (string * pyval)) :
  has_key "features" d = false -> invalid_request (PyDict d) = Ok true.
Proof.
  intros H. unfold invalid_request. destruct d as [|kv d']; [reflexivity|].
  cbn [truthy negb contains]. rewrite H. reflexivity.
Qed.

Lemma handler_on_post (g : globals) (now path : string) (payload : pyval) :
  handler g now (post_event path payload)
  = match (data <- match payload with
                   | PyStr s => json_loads s
                   | _ => Ok payload
                   end ;;
           invalid <- invalid_request data ;;
           if invalid then
             Ok (LambdaResponse 400 [allow_origin]
                   (JsonDumps (failure "Invalid request")))
           else
             features_list <- subscript data "features" ;;
             items <- iterate features_list ;;
             predictions <- predictions_from 0 g items ;;
             Ok (LambdaResponse 200 [content_json; allow_origin]
                   (JsonDumps (success predictions))))
    with
    | Ok r => r
    | Raise e =>
        LambdaResponse 500 [allow_origin] (JsonDumps (failure (str_exn e)))
    end.
Proof.
  unfold handler, post_event. simpl attr_get. rewrite !bind_Ok.
  change (dict_get [("httpMethod", PyStr "POST"); ("path", PyStr path);
                    ("body", payload)] "httpMethod" PyNone)
    with (PyStr "POST").
  change (eq_str (PyStr "POST") "OPTIONS") with false.
  change (eq_str (PyStr "POST") "GET") with false.
  change (eq_str (PyStr "POST") "POST") with true.
  cbv iota. rewrite !bind_Ok. cbv iota.
  change (contains "body" (PyDict [("httpMethod", PyStr "POST");
                                   ("path", PyStr path); ("body", payload)]))
    with (@Ok bool true).
  rewrite bind_Ok. cbv iota. unfold body_data.
  change (subscript (PyDict [("httpMethod", PyStr "POST");
                             ("path", PyStr path); ("body", payload)]) "body")
    with (Ok payload).
  rewrite bind_Ok. reflexivity.
Qed.

Lemma valid_with_features (d : list (string * pyval)) :
  has_key "features" d = true -> invalid_request (PyDict d) = Ok false.
Proof.
  intros H. unfold invalid_request. destruct d as [|kv d']; [discriminate H|].
  cbn [truthy negb contains]. rewrite H. reflexivity.
Qed.

(** A JSON object body is answered 400 "Invalid request" exactly when it has
    no [features] key (the empty object among them): by [handler] in every
    state of the model, by the Flask view once a model is loaded. *)
Theorem missing_features_is_400 (g : globals) (now path : string)
        (d : list (string * pyval)) :
  (handler g now (post_event path (PyDict d))
   = LambdaResponse 400 [allow_origin] (JsonDumps (failure "Invalid request"))
   <-> has_key "features" d = false) /\
  (predict g (Ok (PyDict d)) = Response 400 (failure "Invalid request")
   <-> model g <> ObjNone /\ has_key "features" d = false).
Proof.
  split.
  - rewrite handler_on_post, bind_Ok.
    destruct (has_key "features" d) eqn:H.
    + rewrite (valid_with_features d H), bind_Ok. split; [|discriminate].
      intros E. exfalso. revert E. repeat case_step; discriminate.
    + rewrite (invalid_without_features d H). split; reflexivity.
  - unfold predict. destruct (is_none (model g)) eqn:N.
    + apply is_none_spec in N. split; [discriminate | tauto].
    + assert (M : model g <> ObjNone)
        by (intros M; apply is_none_spec in M; congruence).
      rewrite bind_Ok. destruct (has_key "features" d) eqn:H.
      * rewrite (valid_with_features d H), bind_Ok.
        split; [|intros (_ & F); discriminate F].
        intros E. exfalso. revert E. repeat case_step; discriminate.
      * rewrite (invalid_without_features d H). split; [auto | reflexivity].
Qed.

(** A body that is text and does not parse is answered 500 with the
    parser's message, not 400, in every state of the model. *)
Theorem handler_unparsable_body_is_500 (g : globals) (now path s : string)
        (e : exn) :
  json_loads s = Raise e ->
  handler g now (post_event path (PyStr s))
  = LambdaResponse 500 [allow_origin] (JsonDumps (failure (str_exn e))).
Proof.
  intros H. rewrite handler_on_post, H. reflexivity.
Qed.

(** *** Batches *)

Lemma predictions_from_step (g : globals) (idx : Z) (features : pyval)
      (rest : list pyval) :
  predictions_from idx g (features :: rest)
  = (p <- item_prediction g features ;;
     more <- predictions_from (idx + 1) g rest ;;
     Ok (entry_of idx features p :: more)).
Proof.
  cbn [predictions_from]. unfold item_prediction.
  destruct features as [| | | | | |d]; try reflexivity.
  destruct (transform_features_for_prediction (PyDict d)) as [fv|e];
    [|reflexivity].
  rewrite !bind_Ok. destruct (np_array [fv]) as [X|e]; [|reflexivity].
  rewrite !bind_Ok.
  destruct (model_predict (model g) X) as [p|e]; reflexivity.
Qed.

(** The predictions of a batch made of two are those of the first followed
    by those of the second, the indices of the second counted on from the
    length of the first; an error in the first hides the second. *)
Theorem predictions_from_app (g : globals) (l1 l2 : list pyval) (idx : Z) :
  predictions_from idx g (l1 ++ l2)
  = (ps1 <- predictions_from idx g l1 ;;
     ps2 <- predictions_from (idx + Z.of_nat (List.length l1)) g l2 ;;
     Ok (ps1 ++ ps2)%list).
Proof.
  revert idx. induction l1 as [|f l1 IH]; intros idx.
  - cbn [app predictions_from List.length Z.of_nat]. rewrite bind_Ok, Z.add_0_r.
    destruct (predictions_from idx g l2); reflexivity.
  - rewrite <- app_comm_cons, !predictions_from_step.
    destruct (item_prediction g f) as [p|e]; [|reflexivity].
    rewrite !bind_Ok, IH.
    replace (idx + 1 + Z.of_nat (List.length l1))
      with (idx + Z.of_nat (List.length (f :: l1)))
      by (cbn [List.length]; lia).
    destruct (predictions_from (idx + 1) g l1) as [ps1|e]; [|reflexivity].
    rewrite !bind_Ok.
    destruct (predictions_from (idx + Z.of_nat (List.length (f :: l1))) g l2);
      reflexivity.
Qed.

Lemma predictions_from_all (g : globals) (items : list pyval) :
  forall idx,
    (exists ps, predictions_from idx g items = Ok ps)
    <-> Forall (fun f => exists p, item_prediction g f = Ok p) items.
Proof.
  induction items as [|f rest IH]; intros idx.
  - split; [constructor | intros _; exists []; reflexivity].
  - rewrite predictions_from_step. split.
    + intros (ps & H). bind_inv H. bind_inv H.
      constructor; [eauto|]. apply (IH (idx + 1)). eauto.
    + intros H. inversion H as [|? ? (p & Hp) Hrest]. subst.
      apply (IH (idx + 1)) in Hrest. destruct Hrest as (more & Hm).
      rewrite Hp, bind_Ok, Hm, bind_Ok. eauto.
Qed.

Lemma predictions_from_first_failure (g : globals) (good : list pyval)
      (bad : pyval) (rest : list pyval) (e : exn) :
  Forall (fun f => exists p, item_prediction g f = Ok p) good ->
  item_prediction g bad = Raise e ->
  forall idx, predictions_from idx g (good ++ bad :: rest) = Raise e.
Proof.
  intros G B idx. rewrite predictions_from_app.
  apply (predictions_from_all g good idx) in G. destruct G as (ps & ->).
  rewrite bind_Ok, predictions_from_step, B. reflexivity.
Qed.

(** A batch is answered 200 exactly when a model is loaded and every item,
    taken alone, is transformed, packed and predicted without an error:
    there are no partial results. *)
Theorem batch_succeeds_iff_each_item_does (g : globals)
        (items : list pyval) :
  status (predict g (Ok (PyDict [("features", PyList items)]))) = 200
  <-> model g <> ObjNone /\
      Forall (fun f => exists p, item_prediction g f = Ok p) items.
Proof.
  unfold predict. destruct (is_none (model g)) eqn:N.
  - apply is_none_spec in N. split; [discriminate | tauto].
  - assert (M : model g <> ObjNone)
      by (intros M; apply is_none_spec in M; congruence).
    rewrite bind_Ok.
    change (invalid_request (PyDict [("features", PyList items)]))
      with (@Ok bool false).
    rewrite bind_Ok.
    change (subscript (PyDict [("features", PyList items)]) "features")
      with (Ok (PyList items)).
    rewrite bind_Ok. cbn [iterate]. rewrite bind_Ok.
    rewrite <- (predictions_from_all g items 0).
    destruct (predictions_from 0 g items) as [ps|e]; simpl.
    + split; [eauto | reflexivity].
    + split; [discriminate | intros (_ & ps & H); discriminate H].
Qed.

(** The first item that fails decides the answer: whatever follows it, and
    however many items before it were fine, the answer is 500 with the text
    of that item's exception (503 from the Flask view while no model is
    loaded). *)
Theorem first_failing_item_decides (g : globals) (now path : string)
        (good : list pyval) (bad : pyval) (rest : list pyval) (e : exn) :
  Forall (fun f => exists p, item_prediction g f = Ok p) good ->
  item_prediction g bad = Raise e ->
  let request := PyDict [("features", PyList (good ++ bad :: rest))] in
  handler g now (post_event path request)
  = LambdaResponse 500 [allow_origin] (JsonDumps (failure (str_exn e))) /\
  predict g (Ok request)
  = if is_none (model g)
    then Response 503 (failure "Model not loaded")
    else Response 500 (failure (str_exn e)).
Proof.
  intros G B. cbv zeta.
  pose proof (predictions_from_first_failure g good bad rest e G B 0) as F.
  split.
  - rewrite handler_on_post, bind_Ok.
    change (invalid_request
              (PyDict [("features", PyList (good ++ bad :: rest))]))
      with (@Ok bool false).
    rewrite bind_Ok.
    change (subscript (PyDict [("features", PyList (good ++ bad :: rest))])
                      "features")
      with (Ok (PyList (good ++ bad :: rest))).
    rewrite bind_Ok. cbn [iterate]. rewrite bind_Ok, F. reflexivity.
  - unfold predict. destruct (is_none (model g)); [reflexivity|].
    rewrite bind_Ok.
    change (invalid_request
              (PyDict [("features", PyList (good ++ bad :: rest))]))
      with (@Ok bool false).
    rewrite bind_Ok.
    change (subscript (PyDict [("features", PyList (good ++ bad :: rest))])
                      "features")
      with (Ok (PyList (good ++ bad :: rest))).
    rewrite bind_Ok. cbn [iterate]. rewrite bind_Ok, F. reflexivity.
Qed.

(** A [features] value that cannot be looped over (null, a boolean, a
    number) is answered 500 with the text of the [TypeError], not 400. *)
Theorem features_not_iterable_is_500 (g : globals) (now path : string)
        (v : pyval) :
  match v with
  | PyNone | PyBool _ | PyInt _ | PyFloat _ => True
  | _ => False
  end ->
  let request := PyDict [("features", v)] in
  let message := ("'" ++ type_name v ++ "' object is not iterable")%string in
  handler g now (post_event path request)
  = LambdaResponse 500 [allow_origin] (JsonDumps (failure message)) /\
  predict g (Ok request)
  = if is_none (model g)
    then Response 503 (failure "Model not loaded")
    else Response 500 (failure message).
Proof.
  intros H. cbv zeta. split.
  - rewrite handler_on_post, bind_Ok.
    change (invalid_request (PyDict [("features", v)])) with (@Ok bool false).
    rewrite bind_Ok.
    change (subscript (PyDict [("features", v)]) "features") with (Ok v).
    rewrite bind_Ok. destruct v; try contradiction; reflexivity.
  - unfold predict. destruct (is_none (model g)); [reflexivity|].
    rewrite bind_Ok.
    change (invalid_request (PyDict [("features", v)])) with (@Ok bool false).
    rewrite bind_Ok.
    change (subscript (PyDict [("features", v)]) "features") with (Ok v).
    rewrite bind_Ok. destruct v; try contradiction; reflexivity.
Qed.

(* ===================================================================== *)
(** ** More of the loader *)
(* ===================================================================== *)

(** At start-up [load_model] returns [False] exactly when unpickling
    raised, and the model is set only when it returned [True]; but [True]
    does not say that a model is set: the global stays [None], and the
    service unavailable, exactly when the pickle holds [None] or a dict
    whose [model] entry is [None].  Either way one line is printed. *)
Theorem load_model_flag_and_model (u : result pyobject) :
  let g := fst (load_model u initial) in
  let ok := snd (load_model u initial) in
  (ok = false <-> exists e, u = Raise e) /\
  (model g <> ObjNone -> ok = true) /\
  (ok = true /\ model g = ObjNone <-> unpickles_to_none u) /\
  List.length (stdout g) = 1%nat.
Proof.
  cbv zeta. unfold unpickles_to_none. destruct u as [o|e]; simpl.
  - split; [split; [discriminate | intros (e & H); discriminate H]|].
    split; [reflexivity|]. split; [|reflexivity].
    destruct o as [|d|cls f|cls].
    + split; [auto | auto].
    + destruct (lookup_object "model" d) as [[|d'|cls f|cls]|] eqn:L.
      * split; [intros _; right; eauto | auto].
      * split; [intros (_ & H); discriminate H|].
        intros [H | (d0 & H & H')]; [discriminate H|].
        injection H as <-. rewrite L in H'. discriminate H'.
      * split; [intros (_ & H); discriminate H|].
        intros [H | (d0 & H & H')]; [discriminate H|].
        injection H as <-. rewrite L in H'. discriminate H'.
      * split; [intros (_ & H); discriminate H|].
        intros [H | (d0 & H & H')]; [discriminate H|].
        injection H as <-. rewrite L in H'. discriminate H'.
      * split; [intros (_ & H); discriminate H|].
        intros [H | (d0 & H & H')]; [discriminate H|].
        injection H as <-. rewrite L in H'. discriminate H'.
    + split; [intros (_ & H); discriminate H|].
      intros [H | (d0 & H & _)]; discriminate H.
    + split; [intros (_ & H); discriminate H|].
      intros [H | (d0 & H & _)]; discriminate H.
  - split; [split; eauto|]. split; [intros H; now elim H|].
    split; [|reflexivity]. split; [intros (H & _); discriminate H|].
    intros [H | (d0 & H & _)]; discriminate H.
Qed.

(* ===================================================================== *)
(** ** More of the transformer *)
(* ===================================================================== *)

Lemma dict_get_head (k : string) (v dflt : pyval)
      (d : list (string * pyval)) :
  dict_get ((k, v) :: d) k dflt = v.
Proof.
  unfold dict_get. cbn [lookup]. now rewrite String.eqb_refl.
Qed.

Lemma dict_get_tail (k k' : string) (v dflt : pyval)
      (d : list (string * pyval)) :
  k <> k' -> dict_get ((k, v) :: d) k' dflt = dict_get d k' dflt.
Proof.
  intros H. unfold dict_get. cbn [lookup].
  apply String.eqb_neq in H. now rewrite H.
Qed.

(** The transformer's result as a function of the three values it does
    arithmetic on: replacing one of them by a value with the same phase and
    angles changes nothing. *)
Lemma transform_same_angles (k : string) (v w : pyval)
      (d : list (string * pyval)) :
  In k ["hour"; "day_of_week"; "month"] ->
  hour_phase v = hour_phase w ->
  (forall period, angle v period = angle w period) ->
  transform_features_for_prediction (PyDict ((k, v) :: d))
  = transform_features_for_prediction (PyDict ((k, w) :: d)).
Proof.
  intros K P A. unfold transform_features_for_prediction.
  simpl attr_get. rewrite !bind_Ok. unfold hour_multiplier_of.
  simpl in K. destruct K as [<- | [<- | [<- | []]]];
    rewrite ?dict_get_head, ?dict_get_tail by discriminate;
    rewrite ?P, ?A; reflexivity.
Qed.

(** A JSON boolean in hour, day of week or month counts as the int 0 or 1:
    the features are those of the int. *)
Theorem booleans_count_as_ints (k : string) (b : bool)
        (d : list (string * pyval)) :
  In k ["hour"; "day_of_week"; "month"] ->
  transform_features_for_prediction (PyDict ((k, PyBool b) :: d))
  = transform_features_for_prediction (PyDict ((k, PyInt (Z.b2z b)) :: d)).
Proof.
  intros K. apply transform_same_angles; [exact K | |].
  - destruct b; vm_compute; reflexivity.
  - intros period. destruct b; reflexivity.
Qed.

Lemma calendar_float_phase (z : Z) :
  0 <= z <= 23 ->
  hour_phase (PyFloat (float_of_Z z)) = hour_phase (PyInt z) /\
  is_infinity (float_of_Z z) = false.
Proof.
  intros Hz.
  assert (H : In z (ints 0 23)).
  { unfold ints. apply in_map_iff. exists (Z.to_nat z). split; [lia|].
    apply in_seq. lia. }
  vm_compute in H.
  repeat (destruct H as [<- | H]; [split; vm_compute; reflexivity|]).
  contradiction.
Qed.

(** An hour, day of week or month sent as a float with an integral calendar
    value (12.0 for 12) gives bit for bit the features of the int. *)
Theorem calendar_floats_count_as_ints (k : string) (z : Z)
        (d : list (string * pyval)) :
  In k ["hour"; "day_of_week"; "month"] -> 0 <= z <= 23 ->
  transform_features_for_prediction (PyDict ((k, PyFloat (float_of_Z z)) :: d))
  = transform_features_for_prediction (PyDict ((k, PyInt z) :: d)).
Proof.
  intros K Hz. destruct (calendar_float_phase z Hz) as (P & I).
  apply transform_same_angles; [exact K | exact P |].
  intros period. unfold angle. cbn [float_mul]. unfold int_to_float.
  rewrite I. reflexivity.
Qed.

(** The same-day average takes two values only: in every vector the
    transformer returns, the element at position 12 is exactly 60.0 where
    [is_weekend] is true in Python's sense (any non-zero number, non-empty
    string, list or object) and exactly 50.0 elsewhere (0, null, false, the
    empty string, an absent field). *)
Theorem same_day_average_is_50_or_60 (d : list (string * pyval))
        (v : list pyval) :
  transform_features_for_prediction (PyDict d) = Ok v ->
  nth_error v 12
  = Some (PyFloat (if truthy (dict_get d "is_weekend" (PyInt 0))
                   then 60.0 else 50.0)).
Proof.
  intros H. apply transform_inv in H.
  destruct H as (d' & hm & hs & hc & ds & dc & ms & mc & D & _ & ->).
  assert (d' = d)
    by exact (f_equal (fun x => match x with PyDict y => y | _ => d end)
                      (eq_sym D)).
  subst d'. unfold feature_vector. cbn [nth_error].
  destruct (truthy (dict_get d "is_weekend" (PyInt 0))); reflexivity.
Qed.

End Coverage.

Section Bodies.
Context {RT : Runtime}.

(** A body that is null, a boolean or a number is answered 400 where it is
    false in Python's sense (null, false, 0, 0.0) and 500 with the text of
    the [TypeError] of the membership test elsewhere; the Flask view does
    the same once a model is loaded. *)
Theorem scalar_body_is_400_or_500 (g : globals) (now path : string)
        (data : pyval) :
  match data with
  | PyNone | PyBool _ | PyInt _ | PyFloat _ => True
  | _ => False
  end ->
  let message :=
    ("argument of type '" ++ type_name data ++ "' is not iterable")%string in
  handler g now (post_event path data)
  = (if truthy data
     then LambdaResponse 500 [allow_origin] (JsonDumps (failure message))
     else LambdaResponse 400 [allow_origin]
            (JsonDumps (failure "Invalid request"))) /\
  predict g (Ok data)
  = if is_none (model g) then Response 503 (failure "Model not loaded")
    else if truthy data then Response 500 (failure message)
         else Response 400 (failure "Invalid request").
Proof.
  intros H. cbv zeta. split.
  - rewrite handler_on_post. unfold invalid_request.
    destruct data; try contradiction; rewrite bind_Ok;
      destruct (truthy _); reflexivity.
  - unfold predict, invalid_request. destruct (is_none (model g));
      [reflexivity|].
    destruct data; try contradiction; rewrite bind_Ok;
      destruct (truthy _); reflexivity.
Qed.

Lemma existsb_features (l : list pyval) :
  existsb (fun x => match x with
                    | PyStr s => (s =? "features")%string
                    | _ => false
                    end) l = true
  <-> In (PyStr "features") l.
Proof.
  rewrite existsb_exists. split.
  - intros (x & Hx & E). destruct x; try discriminate E.
    apply String.eqb_eq in E. now subst.
  - intros H. exists (PyStr "features"). split; [exact H | reflexivity].
Qed.

(** A body that is a JSON array is answered 400, unless the string
    "features" is one of its elements: then the membership test passes, the
    subscript fails, and the answer is 500. *)
Theorem array_body_is_400_or_500 (g : globals) (now path : string)
        (l : list pyval) :
  (handler g now (post_event path (PyList l))
   = LambdaResponse 500 [allow_origin]
       (JsonDumps (failure "list indices must be integers or slices, not str"))
   <-> In (PyStr "features") l) /\
  (handler g now (post_event path (PyList l))
   = LambdaResponse 400 [allow_origin] (JsonDumps (failure "Invalid request"))
   <-> ~ In (PyStr "features") l).
Proof.
  rewrite <- existsb_features. rewrite handler_on_post, bind_Ok.
  unfold invalid_request. destruct l as [|x l]; [cbn; intuition discriminate|].
  cbn [truthy negb contains]. rewrite bind_Ok.
  destruct (existsb _ (x :: l)); cbn; intuition discriminate.
Qed.

End Bodies.

(* ===================================================================== *)
(** ** More concrete requests *)
(* ===================================================================== *)

Lemma entry_points_agree_when_loaded_batch :
  is_none (model loaded) = false /\
  same_answer (predict loaded (Ok morning_batch))
              (handler loaded "2024-03-01T09:00:00"
                       (post_event "/api/predict" morning_batch)).
Proof.
  split; [reflexivity|].
  exact (@entry_points_agree_when_loaded table_runtime loaded
           "2024-03-01T09:00:00" "/api/predict" morning_batch morning_batch
           eq_refl eq_refl).
Defined.

Lemma handler_reads_three_keys_headers :
  let bare := [("httpMethod", PyStr "GET"); ("path", PyStr "/api/health")] in
  let full := ("headers", PyDict [("accept", PyStr "*/*")]) :: bare in
  (forall k, In k event_keys -> lookup k full = lookup k bare) /\
  handler loaded "2024-03-01T09:00:00" (PyDict full)
  = handler loaded "2024-03-01T09:00:00" (PyDict bare).
Proof.
  cbv zeta.
  assert (A : forall k, In k event_keys ->
                lookup k (("headers", PyDict [("accept", PyStr "*/*")])
                          :: [("httpMethod", PyStr "GET");
                              ("path", PyStr "/api/health")])
                = lookup k [("httpMethod", PyStr "GET");
                            ("path", PyStr "/api/health")]).
  { intros k [<- | [<- | [<- | []]]]; reflexivity. }
  split; [exact A|].
  exact (@handler_reads_three_keys table_runtime loaded "2024-03-01T09:00:00"
           _ _ A).
Defined.

Lemma handler_post_reads_only_body_health :
  handler loaded "2024-03-01T09:00:00" (post_event "/api/health" morning_batch)
  = handler loaded "2024-03-01T09:00:00"
            (post_event "/api/predict" morning_batch).
Proof.
  exact (@handler_post_reads_only_body table_runtime loaded
           "2024-03-01T09:00:00"
           [("httpMethod", PyStr "POST"); ("path", PyStr "/api/health");
            ("body", morning_batch)]
           [("httpMethod", PyStr "POST"); ("path", PyStr "/api/predict");
            ("body", morning_batch)]
           eq_refl eq_refl eq_refl).
Defined.

Lemma handler_unparsable_body_is_500_text :
  @json_loads table_runtime "features"
  = Raise (Exn ValueError "Expecting value: line 1 column 1 (char 0)") /\
  statusCode (handler loaded "2024-03-01T09:00:00"
                      (post_event "/api/predict" (PyStr "features")))
  = 500.
Proof.
  split; [reflexivity|].
  rewrite (@handler_unparsable_body_is_500 table_runtime loaded
             "2024-03-01T09:00:00" "/api/predict" "features" _ eq_refl).
  reflexivity.
Defined.

Lemma item_prediction_noon :
  @item_prediction table_runtime loaded noon_weekday = Ok 42.5%float.
Proof. reflexivity. Qed.

Lemma first_failing_item_decides_number :
  let request :=
    PyDict [("features", PyList [noon_weekday; PyInt 5; noon_weekday])] in
  @item_prediction table_runtime loaded (PyInt 5)
  = Raise (Exn AttributeError "'int' object has no attribute 'get'") /\
  predict loaded (Ok request)
  = Response 500 (failure "'int' object has no attribute 'get'").
Proof.
  cbv zeta. split; [reflexivity|].
  exact (proj2 (@first_failing_item_decides table_runtime loaded
                  "2024-03-01T09:00:00" "/api/predict"
                  [noon_weekday] (PyInt 5) [noon_weekday] _
                  (Forall_cons _ (ex_intro _ _ item_prediction_noon)
                               (Forall_nil _))
                  eq_refl)).
Defined.

Lemma features_not_iterable_is_500_null :
  predict loaded (Ok (PyDict [("features", PyNone)]))
  = Response 500 (failure "'NoneType' object is not iterable").
Proof.
  exact (proj2 (@features_not_iterable_is_500 table_runtime loaded
                  "2024-03-01T09:00:00" "/api/predict" PyNone I)).
Defined.

Lemma booleans_count_as_ints_hour :
  In "hour" ["hour"; "day_of_week"; "month"] /\
  @transform_features_for_prediction table_runtime
    (PyDict [("hour", PyBool true)])
  = @transform_features_for_prediction table_runtime
      (PyDict [("hour", PyInt 1)]).
Proof.
  split; [simpl; tauto|].
  exact (@booleans_count_as_ints table_runtime "hour" true []
           (or_introl eq_refl)).
Defined.

Lemma calendar_floats_count_as_ints_noon :
  0 <= 12 <= 23 /\
  @transform_features_for_prediction table_runtime
    (PyDict [("hour", PyFloat 12.0)])
  = @transform_features_for_prediction table_runtime
      (PyDict [("hour", PyInt 12)]).
Proof.
  split; [lia|].
  exact (@calendar_floats_count_as_ints table_runtime "hour" 12 []
           (or_introl eq_refl) ltac:(lia)).
Defined.

Lemma same_day_average_is_50_or_60_text :
  exists v,
    @transform_features_for_prediction table_runtime
      (PyDict [("is_weekend", PyStr "no")]) = Ok v /\
    nth_error v 12 = Some (PyFloat 60.0).
Proof.
  eexists. split; [vm_compute; reflexivity|].
  exact (@same_day_average_is_50_or_60 table_runtime
           [("is_weekend", PyStr "no")] _ ltac:(vm_compute; reflexivity)).
Defined.

Lemma scalar_body_is_400_or_500_null :
  handler loaded "2024-03-01T09:00:00" (post_event "/api/predict" PyNone)
  = LambdaResponse 400 [allow_origin] (JsonDumps (failure "Invalid request")) /\
  handler loaded "2024-03-01T09:00:00" (post_event "/api/predict" (PyInt 7))
  = LambdaResponse 500 [allow_origin]
      (JsonDumps (failure "argument of type 'int' is not iterable")).
Proof.
  split.
  - exact (proj1 (@scalar_body_is_400_or_500 table_runtime loaded
                    "2024-03-01T09:00:00" "/api/predict" PyNone I)).
  - exact (proj1 (@scalar_body_is_400_or_500 table_runtime loaded
                    "2024-03-01T09:00:00" "/api/predict" (PyInt 7) I)).
Defined.
